(** * Session-vote view of the management bot (src/bot.py)

    A shallow embedding of [SessionVoteView] (its constructor, the
    [vote_button] handler and the [view_voters_button] handler) together
    with the properties of the vote aggregation it implements.

    The handlers are [async] coroutines that mutate the view object and
    await outbound calls.  They are embedded in a small program monad
    [prog] whose nodes are: reading and writing the view object, awaiting
    an outbound call (which either returns or raises), logging, and
    raising.  Two interpretations are given: [run], which executes one
    handler to completion against given outcomes of the awaited calls, and
    an event loop ([loop_step]) that interleaves several handlers at their
    suspension points. *)

From Stdlib Require Import ZArith Lia.
From stdpp Require Import base tactics option list sorting sets gmap strings
  pretty.

#[local] Set Warnings "-clear-no-such-hyp".
Local Open Scope Z_scope.

(** ** Data *)

(** [discord.Embed]: the parts the handlers set.  A field is its name, its
    value and its [inline] flag. *)
Record Embed := mkEmbed {
  embed_title : option string;
  embed_description : option string;
  embed_image : string;
  embed_fields : list (string * string * bool)
}.

(** A link-style [discord.ui.Button]. *)
Record LinkButton := mkLinkButton {
  button_label : string;
  button_url : string
}.

(** The view object [self].  A member ([starter]) is represented by its
    user identifier, the only part of it the handlers read (through
    [.mention]).  [vote_label] is [self.vote_button.label]. *)
Record View := mkView {
  voters : gset Z;
  vote_threshold : Z;
  starter : option Z;
  vote_label : string
}.

(** What a handler reads from [interaction]: the clicking user, whether
    [interaction.message] is set, and the clock read by
    [datetime.now(timezone.utc)]. *)
Record Interaction := mkInteraction {
  user_id : Z;
  has_message : bool;
  now : Z
}.

(** Outbound calls awaited by the handlers. *)
Inductive Call : Type :=
| ResponseEditMessage (label : string)
    (* interaction.response.edit_message(view=self): the view is rendered
       with the label the vote button has at the time of the call *)
| FollowupSend (content : string) (ephemeral : bool)
| MessageDelete                       (* interaction.message.delete() *)
| ResponseDefer                       (* interaction.response.defer() *)
| DeleteOriginalResponse              (* interaction.delete_original_response() *)
| ChannelSend (content : string) (embeds : list Embed)
    (view : list LinkButton)          (* interaction.channel.send(...) *)
| MessageReply (content : string)     (* session_msg.reply(...) *)
| ResponseSendMessage (content : string) (ephemeral : bool).

(** What a handler does to the outside: a call it awaited, with whether
    the call returned ([true]) or raised ([false]), and a record written by
    [logger.exception]. *)
Inductive Event : Type :=
| EvCall (c : Call) (ok : bool)
| EvLog (msg : string).

(** ** Handler programs *)

(** A handler body: it returns, raises, reads [self], writes [self], awaits
    a call (continuing with [kok] when the call returns and with [kexn]
    when it raises) or logs.  The code between two [Await] nodes runs
    without suspension. *)
Inductive prog (A : Type) : Type :=
| Ret (a : A)
| Raise
| Read (k : View -> prog A)
| Write (v : View) (k : prog A)
| Await (c : Call) (kok : prog A) (kexn : prog A)
| LogException (msg : string) (k : prog A).

Arguments Ret {A} a.
Arguments Raise {A}.
Arguments Read {A} k.
Arguments Write {A} v k.
Arguments Await {A} c kok kexn.
Arguments LogException {A} msg k.

Fixpoint prog_bind {A B : Type} (f : A -> prog B) (p : prog A) : prog B :=
  match p with
  | Ret a => f a
  | Raise => Raise
  | Read k => Read (fun v => prog_bind f (k v))
  | Write v k => Write v (prog_bind f k)
  | Await c kok kexn => Await c (prog_bind f kok) (prog_bind f kexn)
  | LogException msg k => LogException msg (prog_bind f k)
  end.

#[global] Instance prog_mret : MRet prog := fun A a => Ret a.
#[global] Instance prog_mbind : MBind prog := fun A B f p => prog_bind f p.

(** [try: body except Exception: handler]. *)
Fixpoint try_except {A : Type} (body handler : prog A) : prog A :=
  match body with
  | Ret a => Ret a
  | Raise => handler
  | Read k => Read (fun v => try_except (k v) handler)
  | Write v k => Write v (try_except k handler)
  | Await c kok kexn =>
      Await c (try_except kok handler) (try_except kexn handler)
  | LogException msg k => LogException msg (try_except k handler)
  end.

Definition get_self : prog View := Read Ret.
Definition put_self (v : View) : prog unit := Write v (Ret tt).
(** [await call]: returns when the call succeeds, raises when it fails. *)
Definition await (c : Call) : prog unit := Await c (Ret tt) Raise.
Definition log_exception (msg : string) : prog unit :=
  LogException msg (Ret tt).

(** ** Python helpers *)

Definition nl : string := String (Ascii.ascii_of_nat 10) EmptyString.

(** [len(s)] *)
Definition len (s : gset Z) : Z := Z.of_nat (size s).

(** [f"<@{uid}>"] *)
Definition mention (uid : Z) : string := "<@" +:+ pretty uid +:+ ">".

(** [sep.join(parts)] *)
Fixpoint join (sep : string) (parts : list string) : string :=
  match parts with
  | [] => ""
  | [p] => p
  | p :: rest => p +:+ sep +:+ join sep rest
  end.

(** [f"Vote ({n})"] *)
Definition vote_label_of (n : Z) : string := "Vote (" +:+ pretty n +:+ ")".

(** ** Execution of one handler *)

Record Outcome (A : Type) := mkOutcome {
  out_view : View;            (* the view object when the handler stops *)
  out_trace : list Event;     (* calls awaited and log records, in order *)
  out_result : option A       (* [None]: an exception left the handler *)
}.
Arguments mkOutcome {A} out_view out_trace out_result.
Arguments out_view {A} o.
Arguments out_trace {A} o.
Arguments out_result {A} o.

Definition emit {A : Type} (e : Event) (o : Outcome A) : Outcome A :=
  mkOutcome (out_view o) (e :: out_trace o) (out_result o).

(** [run io p v]: run [p] on the view [v]; an awaited call [c] succeeds
    when [io c] holds and raises otherwise. *)
Fixpoint run {A : Type} (io : Call -> bool) (p : prog A) (v : View)
  : Outcome A :=
  match p with
  | Ret a => mkOutcome v [] (Some a)
  | Raise => mkOutcome v [] None
  | Read k => run io (k v) v
  | Write v' k => run io k v'
  | Await c kok kexn =>
      emit (EvCall c (io c)) (run io (if io c then kok else kexn) v)
  | LogException msg k => emit (EvLog msg) (run io k v)
  end.

(** Every awaited call succeeds. *)
Definition io_ok : Call -> bool := fun _ => true.

(** ** The view: constructor *)

Inductive result (A : Type) : Type :=
| Ok (a : A)
| Raised.
Arguments Ok {A} a.
Arguments Raised {A}.

(** [SessionVoteView.__init__] (lines 130-135). *)
Definition SessionVoteView_init (threshold : Z) (starter : option Z)
  : result View :=
  Ok {| voters := ∅;
        vote_threshold := threshold;
        starter := starter;
        vote_label := "Vote (0)" |}.

(** ** The view: field updates and set operations on [self] *)

Definition set_voters (s : gset Z) : prog unit :=
  self ← get_self;
  put_self (mkView s (vote_threshold self) (starter self) (vote_label self)).

Definition set_label (l : string) : prog unit :=
  self ← get_self;
  put_self (mkView (voters self) (vote_threshold self) (starter self) l).

(** [self.voters.remove(uid)]: raises [KeyError] when [uid] is absent. *)
Definition voters_remove (uid : Z) : prog unit :=
  self ← get_self;
  if decide (uid ∈ voters self) then set_voters (voters self ∖ {[uid]})
  else Raise.

(** [self.voters.add(uid)] *)
Definition voters_add (uid : Z) : prog unit :=
  self ← get_self;
  set_voters (voters self ∪ {[uid]}).

(** [self.voters.clear()] *)
Definition voters_clear : prog unit := set_voters ∅.

(** ** The session-start announcement (lines 172-198) *)

Definition start_banner_url : string :=
  "https://media.discordapp.net/attachments/1371624569076449330/1379942614819672094/nsrp_start.png".
Definition bottom_banner_url : string :=
  "https://media.discordapp.net/attachments/1371624569076449330/1379944415539367956/nsrpbottom.png".

Definition session_start_description (starter_mention : string)
    (timestamp : Z) : string :=
  "**Greetings,**" +:+ nl +:+
  "Our management team has decided to host a Session Start Up. " +:+
  "All the people who voted will be asked to join or face moderation!" +:+
  nl +:+ nl +:+
  "**Session Started by**" +:+ nl +:+ starter_mention +:+ nl +:+ nl +:+
  "**Time**" +:+ nl +:+ "<t:" +:+ pretty timestamp +:+ ":F>".

Definition session_start_embeds (starter_mention : string) (timestamp : Z)
  : list Embed :=
  [ mkEmbed None None start_banner_url [];
    mkEmbed (Some "Session Start Up!")
            (Some (session_start_description starter_mention timestamp))
            bottom_banner_url
            [("Code", "Nsrp", true); ("Owner", "TheRealBballGamer40", true);
             ("Name", "Nebraska State Roleplay I Strict I Professional",
              true)] ].

(** [QuickJoinView()] (lines 217-220), with its default url. *)
Definition QuickJoinView : list LinkButton :=
  [mkLinkButton "Quick Join" "https://policeroleplay.community/join/Nsrp"].

Definition mention_content : string := "@here <@&1371624203085676646>".

(** The announcement sent to the channel when the session starts. *)
Definition announcement (v : View) (i : Interaction) : Call :=
  let starter_mention :=
    match starter v with
    | Some m => mention m
    | None => mention (user_id i)
    end in
  ChannelSend mention_content (session_start_embeds starter_mention (now i))
    QuickJoinView.

(** The reply that mentions the voters (lines 200-201). *)
Definition voters_reply (uids : list Z) : Call :=
  MessageReply
    ("The following voters must join or will be moderated!" +:+ nl +:+ nl +:+
     join " " (mention <$> uids)).

(** The two acknowledgements (lines 146 and 206). *)
Definition vote_removed_ack (vote_count threshold : Z) : Call :=
  FollowupSend
    ("Vote removed! (" +:+ pretty vote_count +:+ "/" +:+ pretty threshold +:+ ")")
    true.

Definition vote_counted_ack (remaining : Z) : Call :=
  FollowupSend
    ("Vote counted! **" +:+ pretty remaining +:+
     "** more votes needed to start the session.")
    true.

(** Deleting the vote prompt (lines 160-169). *)
Definition delete_failed_msg : string := "Failed to delete original vote message".

Definition delete_vote_message (i : Interaction) : prog unit :=
  try_except
    (if has_message i then await MessageDelete else Ret tt)
    (try_except
       (await ResponseDefer;; await DeleteOriginalResponse)
       (log_exception delete_failed_msg)).

Section Handlers.

(** Iteration over a Python [set] ([for uid in self.voters]).  The language
    fixes no order for it, and the order CPython uses depends on the hashes
    of the members and on the insertions and removals that built the set.
    The handlers are parametrised by the order the runtime uses; a handler
    iterates at most once, and the properties below hold for every order
    (they assume at most that it enumerates the members once each). *)
Variable set_iter : gset Z -> list Z.

(** [SessionVoteView.vote_button] (lines 138-206). *)
Definition vote_button (i : Interaction) : prog unit :=
  let uid := user_id i in
  self ← get_self;
  if decide (uid ∈ voters self) then
    voters_remove uid;;
    self ← get_self;
    let vote_count := len (voters self) in
    set_label (vote_label_of vote_count);;
    self ← get_self;
    await (ResponseEditMessage (vote_label self));;
    self ← get_self;
    await (vote_removed_ack vote_count (vote_threshold self))
  else
    voters_add uid;;
    self ← get_self;
    let vote_count := len (voters self) in
    set_label (vote_label_of vote_count);;
    self ← get_self;
    await (ResponseEditMessage (vote_label self));;
    self ← get_self;
    let remaining := vote_threshold self - vote_count in
    if decide (remaining ≤ 0) then
      delete_vote_message i;;
      self ← get_self;
      await (announcement self i);;
      self ← get_self;
      await (voters_reply (set_iter (voters self)));;
      voters_clear;;
      set_label "Vote (0)"
    else
      await (vote_counted_ack remaining).

(** [SessionVoteView.view_voters_button] (lines 209-214). *)
Definition view_voters_button (i : Interaction) : prog unit :=
  self ← get_self;
  if decide (voters self = ∅) then
    await (ResponseSendMessage "No one has voted yet!" true)
  else
    let voter_list := join " " (mention <$> set_iter (voters self)) in
    self ← get_self;
    await (ResponseSendMessage
             ("**Current Voters (" +:+ pretty (len (voters self)) +:+ "/" +:+
              pretty (vote_threshold self) +:+ "):**" +:+ nl +:+ voter_list)
             true).

End Handlers.

(** Clicks on the vote button handled one after the other, each handler
    running to completion before the next click arrives.  An exception that
    leaves a handler is caught by the dispatcher; the view object stays as
    the handler left it. *)
Fixpoint run_clicks (set_iter : gset Z -> list Z) (io : Call -> bool)
    (v : View) (clicks : list Interaction) : list (Outcome unit) :=
  match clicks with
  | [] => []
  | i :: rest =>
      let o := run io (vote_button set_iter i) v in
      o :: run_clicks set_iter io (out_view o) rest
  end.

(** ** Observations on an outcome *)

Definition is_announcement (e : Event) : bool :=
  match e with
  | EvCall (ChannelSend _ _ _) _ => true
  | _ => false
  end.

(** The handler entered the session-start flow: it awaited the
    announcement. *)
Definition session_started {A : Type} (o : Outcome A) : bool :=
  existsb is_announcement (out_trace o).

(** ** The event loop: handlers interleaved at their suspension points *)

Inductive Task : Type :=
| Suspended (c : Call) (kok kexn : prog unit)
| Finished
| Failed.

(** Run a handler up to its next [await] (or to its end). *)
Fixpoint advance (p : prog unit) (v : View) : View * list Event * Task :=
  match p with
  | Ret _ => (v, [], Finished)
  | Raise => (v, [], Failed)
  | Read k => advance (k v) v
  | Write v' k => advance k v'
  | Await c kok kexn => (v, [], Suspended c kok kexn)
  | LogException msg k =>
      let '(v', tr, t) := advance k v in (v', EvLog msg :: tr, t)
  end.

Record Loop := mkLoop {
  loop_view : View;
  loop_tasks : list Task;
  loop_trace : list Event
}.

Inductive LoopEvent : Type :=
| Click (i : Interaction)              (* a click starts a new handler *)
| Complete (n : nat) (ok : bool).      (* the call awaited by task n returns or raises *)

Definition loop_step (set_iter : gset Z -> list Z) (l : Loop)
    (e : LoopEvent) : Loop :=
  match e with
  | Click i =>
      let '(v, tr, t) := advance (vote_button set_iter i) (loop_view l) in
      mkLoop v (loop_tasks l ++ [t]) (loop_trace l ++ tr)
  | Complete n ok =>
      match loop_tasks l !! n with
      | Some (Suspended c kok kexn) =>
          let '(v, tr, t) :=
            advance (if ok then kok else kexn) (loop_view l) in
          mkLoop v (<[n := t]> (loop_tasks l))
                 (loop_trace l ++ EvCall c ok :: tr)
      | _ => l
      end
  end.

Definition loop_run (set_iter : gset Z -> list Z) (v : View)
    (es : list LoopEvent) : Loop :=
  foldl (loop_step set_iter) (mkLoop v [] []) es.

(** ** The vote set of the specification *)

(** [VoteSet.toggle] as the specification words it: add the identifier
    when absent, remove it when present. *)
Definition spec_toggle (s : gset Z) (uid : Z) : gset Z :=
  if decide (uid ∈ s) then s ∖ {[uid]} else s ∪ {[uid]}.

(** The voter count after a sequence of clicks, each taken as a pure
    toggle. *)
Definition count_after (s : gset Z) (clicks : list Interaction) : Z :=
  len (foldl spec_toggle s (user_id <$> clicks)).

(** ** Closed forms and observations used in the statements *)

(** [tr] in front of the trace of [o]. *)
Definition prepend {A : Type} (tr : list Event) (o : Outcome A) : Outcome A :=
  mkOutcome (out_view o) (tr ++ out_trace o) (out_result o).

(** The view after [uid] has been removed, after [uid] has been added, and
    after the session-start flow has reset it. *)
Definition removed_view (v : View) (uid : Z) : View :=
  mkView (voters v ∖ {[uid]}) (vote_threshold v) (starter v)
         (vote_label_of (len (voters v ∖ {[uid]}))).

Definition added_view (v : View) (uid : Z) : View :=
  mkView (voters v ∪ {[uid]}) (vote_threshold v) (starter v)
         (vote_label_of (len (voters v ∪ {[uid]}))).

Definition reset_view (v : View) : View :=
  mkView ∅ (vote_threshold v) (starter v) "Vote (0)".

(** The events of the deletion block (lines 160-169), by the outcomes of
    its calls. *)
Definition fallback_trace (io : Call -> bool) : list Event :=
  EvCall ResponseDefer (io ResponseDefer) ::
  (if io ResponseDefer then
     EvCall DeleteOriginalResponse (io DeleteOriginalResponse) ::
     (if io DeleteOriginalResponse then [] else [EvLog delete_failed_msg])
   else [EvLog delete_failed_msg]).

Definition delete_trace (io : Call -> bool) (i : Interaction) : list Event :=
  if has_message i then
    EvCall MessageDelete (io MessageDelete) ::
    (if io MessageDelete then [] else fallback_trace io)
  else [].

(** The click adds a voter and the captured count reaches the threshold
    (line 157: [remaining <= 0]). *)
Definition crossing (v : View) (uid : Z) : Prop :=
  (uid ∉ voters v) ∧ (vote_threshold v - len (voters v ∪ {[uid]}) ≤ 0).

#[global] Instance crossing_dec v uid : Decision (crossing v uid).
Proof. unfold crossing. apply _. Defined.

(** The calls of the deletion block. *)
Definition is_deletion_call (c : Call) : bool :=
  match c with
  | MessageDelete | ResponseDefer | DeleteOriginalResponse => true
  | _ => false
  end.

(** Every call outside the deletion block is delivered. *)
Definition delivers (io : Call -> bool) : Prop :=
  ∀ c, is_deletion_call c = false -> io c = true.

(** Both deletion paths fail; everything else is delivered. *)
Definition io_no_delete (c : Call) : bool := negb (is_deletion_call c).

(** The number of announcements in a trace. *)
Definition announcements (tr : list Event) : nat :=
  length (filter (λ e, is_announcement e = true) tr).

(** The call a task is waiting for. *)
Definition pending_call (t : Task) : option Call :=
  match t with
  | Suspended c _ _ => Some c
  | _ => None
  end.

(** The reply of the session-start flow mentions the users [final], in
    that order. *)
Definition mentions_voters (o : Outcome unit) (final : list Z) : Prop :=
  EvCall (voters_reply final) true ∈ out_trace o.

(** ** Sample inputs *)

(** A click by user [n] on a prompt that still exists. *)
Definition click (n : Z) : Interaction := mkInteraction n true 1700000000.

Definition view_of (s : gset Z) (threshold : Z) : View :=
  mkView s threshold (Some 99) (vote_label_of (len s)).

(** An iteration order the language permits: the members in increasing
    order.  It is the order in which CPython iterates a set of small
    non-negative integers stored without collision, such as {1, 2}, whichever
    member was added first. *)
Definition increasing_iter (s : gset Z) : list Z :=
  merge_sort Z.le (elements s).

(** The outcome of the last of a sequence of clicks on a fresh view. *)
Definition last_outcome (set_iter : gset Z -> list Z) (threshold : Z)
    (uids : list Z) : option (Outcome unit) :=
  match SessionVoteView_init threshold (Some 99) with
  | Ok v => last (run_clicks set_iter io_ok v (click <$> uids))
  | Raised => None
  end.

(** Scenario A up to the seventh vote: the voter count and the trace of
    each of the clicks by users 1..7 in a row on a fresh view with
    threshold 8. *)
Definition scenario_A_updates : list (Z * list Event) :=
  [ (1, [EvCall (ResponseEditMessage "Vote (1)") true;
         EvCall (FollowupSend
           "Vote counted! **7** more votes needed to start the session." true)
           true]);
    (2, [EvCall (ResponseEditMessage "Vote (2)") true;
         EvCall (FollowupSend
           "Vote counted! **6** more votes needed to start the session." true)
           true]);
    (3, [EvCall (ResponseEditMessage "Vote (3)") true;
         EvCall (FollowupSend
           "Vote counted! **5** more votes needed to start the session." true)
           true]);
    (4, [EvCall (ResponseEditMessage "Vote (4)") true;
         EvCall (FollowupSend
           "Vote counted! **4** more votes needed to start the session." true)
           true]);
    (5, [EvCall (ResponseEditMessage "Vote (5)") true;
         EvCall (FollowupSend
           "Vote counted! **3** more votes needed to start the session." true)
           true]);
    (6, [EvCall (ResponseEditMessage "Vote (6)") true;
         EvCall (FollowupSend
           "Vote counted! **2** more votes needed to start the session." true)
           true]);
    (7, [EvCall (ResponseEditMessage "Vote (7)") true;
         EvCall (FollowupSend
           "Vote counted! **1** more votes needed to start the session." true)
           true]) ].

(** Threshold 2: user 1 votes; then users 2 and 3 click, the second click
    arriving while the handler of the first is suspended. *)
Definition two_clicks_in_flight : list LoopEvent :=
  [ Click (click 1); Complete 0 true; Complete 0 true;
    Click (click 2);            (* suspends at the label edit *)
    Click (click 3);            (* runs while the handler of user 2 waits *)
    Complete 1 true; Complete 2 true;
    Complete 1 true; Complete 2 true;
    Complete 1 true; Complete 2 true;
    Complete 1 true; Complete 2 true ].

(** ** Text commands, persisted state and bot events

    The commands of [BasicCommands] and the events of [NebraskaBot] read a
    context, the module-level globals ([WELCOME_CHANNEL_ID], [state]) and
    the state file, and perform outbound calls.  They are embedded in a
    second program monad [cmd], like [prog] but over the globals and with
    exceptions that carry their class and text. *)

(** [discord.Color.*()] *)
Inductive Color : Type :=
| color_red | color_gold | color_orange | color_blue
| color_dark_red | color_dark_grey.

(** A [discord.Embed] as the commands build it. *)
Record RichEmbed := mkRichEmbed {
  re_title : option string;
  re_description : option string;
  re_color : option Color;
  re_fields : list (string * string * bool);
  re_image : option string;
  re_footer : option string
}.

Inductive UiButton : Type :=
| link_button (label url : string)
| disabled_button (label : string).

(** The [view=] argument of a send. *)
Inductive Attachment : Type :=
| no_view
| vote_view (v : View)
| button_view (buttons : list UiButton).

(** The arguments of [ctx.send] / [channel.send]. *)
Record Outbound := mkOutbound {
  ob_content : option string;
  ob_embeds : list RichEmbed;
  ob_view : Attachment;
  ob_delete_after : option Z
}.

(** The exception classes the handlers tell apart: [except Exception]
    catches the first only. *)
Inductive ExnClass : Type :=
| exn_Exception
| exn_KeyboardInterrupt
| exn_BaseException.

Record Exn := mkExn {
  exn_class : ExnClass;
  exn_text : string          (* str(e) *)
}.

(** External calls of the commands: outbound messages, the state file and
    the bot itself. *)
Inductive CtxCall : Type :=
| CtxMessageDelete                              (* ctx.message.delete() *)
| CtxSend (m : Outbound)                        (* ctx.send(...) *)
| WelcomeChannelSend (channel : Z) (m : Outbound)   (* welcome_channel.send(...) *)
| FileOpenRead                                  (* open(STATE_FILE, "r") *)
| FileOpenWrite                                 (* open(STATE_FILE, "w") *)
| JsonDump (d : gmap string Z)                  (* json.dump(state, f, indent=2) *)
| BotSetup                                      (* NebraskaBot.setup() *)
| BotStart (token : string).                    (* self.bot.start(token) *)

(** The state file: absent, present without a JSON document in it, or
    holding the dictionary [save_state] wrote (its values are the integers
    the program stores). *)
Inductive Disk : Type :=
| no_file
| corrupt_file
| json_file (d : gmap string Z).

(** The module-level globals and the state file. *)
Record Globals := mkGlobals {
  WELCOME_CHANNEL_ID : Z;
  state : gmap string Z;
  disk : Disk
}.

Inductive LogLevel : Type := log_info | log_error | log_exception_level.

Inductive CmdEvent : Type :=
| CmdCall (c : CtxCall) (raised : option Exn)
| CmdLog (level : LogLevel) (msg : string).

Inductive cmd (A : Type) : Type :=
| CRet (a : A)
| CRaise (e : Exn)
| CGet (k : Globals -> cmd A)
| CPut (g : Globals) (k : cmd A)
| CCall (c : CtxCall) (kok : cmd A) (kexn : Exn -> cmd A)
| CLog (level : LogLevel) (msg : string) (k : cmd A).

Arguments CRet {A} a.
Arguments CRaise {A} e.
Arguments CGet {A} k.
Arguments CPut {A} g k.
Arguments CCall {A} c kok kexn.
Arguments CLog {A} level msg k.

Fixpoint cmd_bind {A B : Type} (f : A -> cmd B) (p : cmd A) : cmd B :=
  match p with
  | CRet a => f a
  | CRaise e => CRaise e
  | CGet k => CGet (fun g => cmd_bind f (k g))
  | CPut g k => CPut g (cmd_bind f k)
  | CCall c kok kexn => CCall c (cmd_bind f kok) (fun e => cmd_bind f (kexn e))
  | CLog l m k => CLog l m (cmd_bind f k)
  end.

#[global] Instance cmd_mret : MRet cmd := fun A a => CRet a.
#[global] Instance cmd_mbind : MBind cmd := fun A B f p => cmd_bind f p.

(** [try: body except ...]: [handler e] is the clause that catches [e], or
    [None] when no clause does. *)
Fixpoint ctry_with {A : Type} (body : cmd A) (handler : Exn -> option (cmd A))
  : cmd A :=
  match body with
  | CRet a => CRet a
  | CRaise e => match handler e with Some h => h | None => CRaise e end
  | CGet k => CGet (fun g => ctry_with (k g) handler)
  | CPut g k => CPut g (ctry_with k handler)
  | CCall c kok kexn =>
      CCall c (ctry_with kok handler) (fun e => ctry_with (kexn e) handler)
  | CLog l m k => CLog l m (ctry_with k handler)
  end.

(** [try: body except Exception as e: handler e] *)
Definition ctry {A : Type} (body : cmd A) (handler : Exn -> cmd A) : cmd A :=
  ctry_with body
    (fun e => match exn_class e with
              | exn_Exception => Some (handler e)
              | _ => None
              end).

Definition cget : cmd Globals := CGet CRet.
Definition cput (g : Globals) : cmd unit := CPut g (CRet tt).
Definition ccall (c : CtxCall) : cmd unit := CCall c (CRet tt) CRaise.
Definition clog (level : LogLevel) (msg : string) : cmd unit :=
  CLog level msg (CRet tt).

Record CmdOutcome (A : Type) := mkCmdOutcome {
  co_globals : Globals;
  co_trace : list CmdEvent;
  co_result : A + Exn          (* [inr e]: [e] left the handler *)
}.
Arguments mkCmdOutcome {A} co_globals co_trace co_result.
Arguments co_globals {A} c.
Arguments co_trace {A} c.
Arguments co_result {A} c.

Definition cemit {A : Type} (e : CmdEvent) (o : CmdOutcome A) : CmdOutcome A :=
  mkCmdOutcome (co_globals o) (e :: co_trace o) (co_result o).

(** What a call does to the state file: opening it for writing truncates
    it, a completed dump leaves the dictionary in it. *)
Definition disk_after (c : CtxCall) (raised : option Exn) (d : Disk) : Disk :=
  match c, raised with
  | FileOpenWrite, None => corrupt_file
  | JsonDump s, None => json_file s
  | _, _ => d
  end.

(** [run_cmd io p g]: run [p] on the globals [g]; a call [c] returns when
    [io c] is [None] and raises [e] when it is [Some e]. *)
Fixpoint run_cmd {A : Type} (io : CtxCall -> option Exn) (p : cmd A)
    (g : Globals) : CmdOutcome A :=
  match p with
  | CRet a => mkCmdOutcome g [] (inl a)
  | CRaise e => mkCmdOutcome g [] (inr e)
  | CGet k => run_cmd io (k g) g
  | CPut g' k => run_cmd io k g'
  | CCall c kok kexn =>
      cemit (CmdCall c (io c))
        (run_cmd io (match io c with None => kok | Some e => kexn e end)
           (mkGlobals (WELCOME_CHANNEL_ID g) (state g)
                      (disk_after c (io c) (disk g))))
  | CLog l m k => cemit (CmdLog l m) (run_cmd io k g)
  end.

(** *** Persisted state (lines 25-26, 103-123) *)

Definition DEFAULT_WELCOME_CHANNEL_ID : Z := 1371624518514376916.

Definition json_decode_error : Exn :=
  mkExn exn_Exception "Expecting value: line 1 column 1 (char 0)".

(** [load_state()] *)
Definition load_state : cmd (gmap string Z) :=
  g ← cget;
  match disk g with
  | no_file => mret ∅
  | _ =>
      ctry (ccall FileOpenRead;;
            g ← cget;
            match disk g with
            | json_file d => mret d
            | _ => CRaise json_decode_error
            end)
           (fun e =>
              clog log_error ("Failed to load state file: " +:+ exn_text e);;
              mret ∅)
  end.

(** [save_state(state)] *)
Definition save_state (s : gmap string Z) : cmd unit :=
  ctry (ccall FileOpenWrite;; ccall (JsonDump s))
       (fun e => clog log_error ("Failed to save state file: " +:+ exn_text e)).

(** Lines 122-123, run when the module is loaded. *)
Definition module_init : cmd unit :=
  s ← load_state;
  g ← cget;
  cput (mkGlobals (default DEFAULT_WELCOME_CHANNEL_ID
                     (s !! "welcome_channel_id"))
                  s (disk g)).

(** A new process on the state file that [g] leaves. *)
Definition restart (io : CtxCall -> option Exn) (g : Globals) : CmdOutcome unit :=
  run_cmd io module_init (mkGlobals 0 ∅ (disk g)).

(** *** The command context *)

(** What the commands read from [ctx]. *)
Record Context := mkContext {
  ctx_author : Z;               (* ctx.author.id *)
  ctx_author_name : string;     (* str(ctx.author) *)
  ctx_author_roles : list Z;    (* r.id for r in ctx.author.roles *)
  ctx_guild : Z;                (* ctx.guild.id *)
  ctx_member_count : Z;         (* ctx.guild.member_count *)
  ctx_now : Z;                  (* int(datetime.now(timezone.utc).timestamp()) *)
  ctx_clock : string            (* datetime.now(timezone.utc).strftime(...) *)
}.

(** A cached channel, as [bot.get_channel] returns it. *)
Record Channel := mkChannel {
  channel_id : Z;
  channel_guild : Z
}.

(** [channel.mention] *)
Definition channel_mention (cid : Z) : string := "<#" +:+ pretty cid +:+ ">".

(** [try: await ctx.message.delete() except Exception: pass] *)
Definition delete_invocation : cmd unit :=
  ctry (ccall CtxMessageDelete) (fun _ => mret tt).

Definition required_role_id : Z := 1371624144034332804.

(** [any(r.id == required_role_id for r in ctx.author.roles)] *)
Definition has_required_role (ctx : Context) : bool :=
  existsb (fun r => bool_decide (r = required_role_id)) (ctx_author_roles ctx).

Definition text_message (content : string) (delete_after : option Z)
  : Outbound :=
  mkOutbound (Some content) [] no_view delete_after.

Definition image_embed (url : string) : RichEmbed :=
  mkRichEmbed None None None [] (Some url) None.

(** *** Session commands (lines 240-317) *)

Definition session_vote_description (author_mention : string) (timestamp : Z)
  : string :=
  "**Greetings**, Our management team has decided to host a session vote. " +:+
  "we must reach 8+ votes to initiate a session!" +:+ nl +:+ nl +:+
  "**Started by**" +:+ nl +:+ author_mention +:+ nl +:+ nl +:+
  "**Time**" +:+ nl +:+ "<t:" +:+ pretty timestamp +:+ ":F>".

(** [session] *)
Definition session (ctx : Context) : cmd unit :=
  if negb (has_required_role ctx) then mret tt
  else
    delete_invocation;;
    let timestamp := ctx_now ctx in
    let embeds :=
      [ image_embed start_banner_url;
        mkRichEmbed (Some "Session Start Up!")
          (Some (session_vote_description (mention (ctx_author ctx)) timestamp))
          None [] (Some bottom_banner_url) None ] in
    match SessionVoteView_init 8 (Some (ctx_author ctx)) with
    | Ok view =>
        ccall (CtxSend (mkOutbound (Some mention_content) embeds
                          (vote_view view) None))
    | Raised => CRaise (mkExn exn_Exception "")
    end.

(** [sessionboost] *)
Definition sessionboost (ctx : Context) : cmd unit :=
  if negb (has_required_role ctx) then mret tt
  else
    delete_invocation;;
    let embeds :=
      [ image_embed "https://media.discordapp.net/attachments/1371624569076449330/1379959681019023410/nsrp_low.png";
        mkRichEmbed None
          (Some ("Our management team has decided to host a Server Boost. Because we are either low players or not much roleplay is going on!" +:+ nl))
          None [] (Some bottom_banner_url) None ] in
    ccall (CtxSend (mkOutbound (Some mention_content) embeds no_view None)).

(** [full] *)
Definition full (ctx : Context) : cmd unit :=
  if negb (has_required_role ctx) then mret tt
  else
    delete_invocation;;
    let timestamp := ctx_now ctx in
    let embeds :=
      [ image_embed "https://media.discordapp.net/attachments/1371624569076449330/1379961617336500314/nsrp_full.png";
        mkRichEmbed None
          (Some ("The server has been full since <t:" +:+ pretty timestamp +:+
                 ":R> ; keep attempting to join!"))
          None [] (Some bottom_banner_url) None ] in
    ccall (CtxSend (mkOutbound None embeds no_view None)).

(** [ssd] *)
Definition ssd (ctx : Context) : cmd unit :=
  if negb (has_required_role ctx) then mret tt
  else
    delete_invocation;;
    let timestamp := ctx_now ctx in
    let embeds :=
      [ image_embed "https://media.discordapp.net/attachments/1371624569076449330/1380314637198823464/image.png";
        mkRichEmbed (Some "Session Shut-Down")
          (Some ("Unfortunately, our staff team is unable to moderate the Server anymore, or there is a lack of players, you're not permitted to join during this period. " +:+
                 "To be notified of our future sessions please keep an eye out for a Session in <#1371624511153242152>" +:+
                 nl +:+ nl +:+ "**Server Shut Down**" +:+ nl +:+
                 "<t:" +:+ pretty timestamp +:+ ":F>" +:+ nl +:+ nl +:+
                 "**Shutdown initiated by**" +:+ nl +:+ mention (ctx_author ctx)))
          (Some color_dark_grey) [] (Some bottom_banner_url) None ] in
    ccall (CtxSend (mkOutbound None embeds no_view None)).

(** *** The infraction command (lines 322-398) *)

(** Truth value of an optional string argument ([None] and [""] are
    false). *)
Definition truthy (s : option string) : bool :=
  match s with
  | Some (String _ _) => true
  | _ => false
  end.

Definition valid_types : list string :=
  ["warning"; "strike"; "demotion"; "suspension"; "termination"].

(** [type_config]: colour and emoji per type. *)
Definition type_config : gmap string (Color * string) :=
  list_to_map
    [ ("warning", (color_gold, "⚠️"));
      ("strike", (color_orange, "🔶"));
      ("demotion", (color_red, "⬇️"));
      ("suspension", (color_blue, "⏸️"));
      ("termination", (color_dark_red, "❌")) ].

(** [parts[-n]] for [n >= 1]; [None] where Python raises [IndexError]. *)
Definition neg_index (parts : list string) (n : nat) : option string :=
  if decide (n ≤ length parts)%nat then parts !! (length parts - n)%nat
  else None.

(** [parts[:-n]] *)
Definition drop_last (n : nat) (parts : list string) : list string :=
  take (length parts - n) parts.

(** What lines 352-375 make of the words of [reason_and_type]. *)
Inductive Parsed : Type :=
| parsed (infraction_type : string) (duration : option string) (reason : string)
| invalid_type (entered : string)
| needs_duration
| index_error.

Definition error_embed (title description : string) : RichEmbed :=
  mkRichEmbed (Some title) (Some description) (Some color_red) [] None None.

Definition usage_error : RichEmbed :=
  error_embed "❌ Invalid Command Usage"
    ("**Usage:** `!infract [USER] [APPEALABLE] [REASON] [TYPE] [DURATION]`" +:+
     nl +:+ nl +:+
     "**Valid Types:** Warning, Strike, Demotion, Suspension, Termination" +:+
     nl +:+ "**Examples:**" +:+ nl +:+
     "`!infract @user Yes Failing to follow traffic laws Warning`" +:+ nl +:+
     "`!infract @user No Excessive violations Suspension 7d`").

Definition appealable_error : RichEmbed :=
  error_embed "❌ Invalid Appealable Value"
    ("**Appealable must be:** `Yes` or `No`" +:+ nl +:+ nl +:+
     "**Example:** `!infract @user Yes Reason Warning`").

Definition missing_type_error : RichEmbed :=
  error_embed "❌ Missing Infraction Type"
    ("**Valid Types:** Warning, Strike, Demotion, Suspension, Termination" +:+
     nl +:+ nl +:+ "**Example:** `!infract @user Yes Reason Warning`").

Definition invalid_type_error (entered : string) : RichEmbed :=
  error_embed "❌ Invalid Infraction Type"
    ("**Valid Types:** Warning, Strike, Demotion, Suspension, Termination" +:+
     nl +:+ "**You entered:** " +:+ entered).

Definition suspension_duration_error : RichEmbed :=
  error_embed "❌ Suspension Requires Duration"
    ("**Example:** `!infract @user No Excessive violations Suspension 7d`" +:+
     nl +:+ "**Duration formats:** 1h, 3d, 1w, 30d").

(** [ctx.send(embed=e, delete_after=n)] *)
Definition send_error (e : RichEmbed) (delete_after : Z) : cmd unit :=
  ccall (CtxSend (mkOutbound None [e] no_view (Some delete_after))).

Section Infract.

(** [str.lower], [str.capitalize] and [str.split] of the runtime. *)
Variable lower : string -> string.
Variable capitalize : string -> string.
Variable split : string -> list string.

(** Lines 352-375: the type, the duration and the reason read off the
    words. *)
Definition parse_reason_and_type (parts : list string) : Parsed :=
  match neg_index parts 1 with
  | None => index_error
  | Some last_word =>
      let infraction_type := lower last_word in
      if decide (infraction_type ∉ valid_types) then
        if decide (3 ≤ length parts)%nat then
          match neg_index parts 2 with
          | None => index_error
          | Some before_last =>
              if decide (lower before_last ∈ valid_types) then
                parsed (lower before_last) (Some last_word)
                       (join " " (drop_last 2 parts))
              else invalid_type last_word
          end
        else invalid_type last_word
      else if decide (infraction_type = "suspension" ∧ (3 ≤ length parts)%nat)
      then parsed infraction_type (Some last_word)
                  (join " " (drop_last 2 parts))
      else if decide (infraction_type = "suspension") then needs_duration
      else parsed infraction_type None (join " " (drop_last 1 parts))
  end.

(** Lines 377-396: the embed of the infraction. *)
Definition infraction_embed (ctx : Context) (infraction_type appealable : string)
    (duration : option string) (reason : string) : RichEmbed :=
  let config :=
    default (color_dark_grey, "") (type_config !! infraction_type) in
  mkRichEmbed
    (Some ("Staff Infraction | " +:+ capitalize infraction_type))
    (Some "The Nebraska State Roleplay HR team have decided to infract you for the following reason(s)")
    (Some config.1)
    ([ ("Appealable:", capitalize appealable, false);
       ("Reason:",
        match reason with "" => "No reason provided" | _ => reason end, false) ]
     ++ (if truthy duration
         then [("Duration:", default "" duration, false)] else [])
     ++ [ ("Issued By:", mention (ctx_author ctx), false) ])
    (Some bottom_banner_url)
    (Some (ctx_clock ctx)).

(** [infract] *)
Definition infract (ctx : Context) (user : option Z)
    (appealable reason_and_type : option string) : cmd unit :=
  delete_invocation;;
  match user, appealable, reason_and_type with
  | Some user, Some (String _ _ as appealable),
    Some (String _ _ as reason_and_type) =>
      if decide (lower appealable ∉ ["yes"; "no"]) then
        send_error appealable_error 10
      else
        let parts := split reason_and_type in
        if decide (length parts < 2)%nat then send_error missing_type_error 10
        else
          match parse_reason_and_type parts with
          | index_error => CRaise (mkExn exn_Exception "list index out of range")
          | invalid_type entered => send_error (invalid_type_error entered) 10
          | needs_duration => send_error suspension_duration_error 10
          | parsed infraction_type duration reason =>
              ccall (CtxSend
                       (mkOutbound (Some (mention user))
                          [infraction_embed ctx infraction_type appealable
                             duration reason]
                          no_view None))
          end
  | _, _, _ => send_error usage_error 15
  end.

End Infract.

(** *** Utility commands (lines 440-515) *)

(** [say] *)
Definition say (ctx : Context) (message : option string) : cmd unit :=
  delete_invocation;;
  match message with
  | Some (String _ _ as message) => ccall (CtxSend (text_message message None))
  | _ =>
      send_error
        (error_embed "❌ Error"
           ("Please provide a message for me to say." +:+ nl +:+ nl +:+
            "**Usage:** `!say <message>`"))
        10
  end.

(** [setwelcome]; [channel] is the identifier of the channel argument. *)
Definition setwelcome (ctx : Context) (channel : option Z) : cmd unit :=
  delete_invocation;;
  match channel with
  | None =>
      ccall (CtxSend (text_message
                        "Please specify a channel. Usage: `!setwelcome #channel-name`"
                        (Some 10)))
  | Some channel =>
      g ← cget;
      let old := WELCOME_CHANNEL_ID g in
      cput (mkGlobals channel (state g) (disk g));;
      g ← cget;
      cput (mkGlobals (WELCOME_CHANNEL_ID g)
              (<["welcome_channel_id" := WELCOME_CHANNEL_ID g]> (state g))
              (disk g));;
      g ← cget;
      save_state (state g);;
      g ← cget;
      clog log_info ("Welcome channel updated from " +:+ pretty old +:+ " to " +:+
                     pretty (WELCOME_CHANNEL_ID g) +:+ " by " +:+
                     ctx_author_name ctx);;
      ccall (CtxSend (text_message
                        ("Welcome channel updated to " +:+ channel_mention channel)
                        (Some 10)))
  end.

(** [WelcomeView(member_count)] (lines 223-227) *)
Definition WelcomeView (member_count : Z) : Attachment :=
  button_view
    [ disabled_button (pretty member_count);
      link_button "Dashboard"
        "https://discord.com/channels/1349505197210206350/1371624475610710106" ].

Definition welcome_message (member member_count : Z) : Outbound :=
  mkOutbound
    (Some ("Welcome **-** " +:+ mention member +:+
           " to **Nebraska State Roleplay** thank you so much for joining!"))
    [] (WelcomeView member_count) None.

Section Events.

(** [self.bot.get_channel]: the bot's channel cache. *)
Variable get_channel : Z -> option Channel.

(** [testwelcome] *)
Definition testwelcome (ctx : Context) : cmd unit :=
  delete_invocation;;
  g ← cget;
  clog log_info ("Testing welcome with channel ID: " +:+
                 pretty (WELCOME_CHANNEL_ID g));;
  g ← cget;
  match get_channel (WELCOME_CHANNEL_ID g) with
  | Some welcome_channel =>
      if decide (channel_guild welcome_channel = ctx_guild ctx) then
        ctry
          (ccall (WelcomeChannelSend (channel_id welcome_channel)
                    (welcome_message (ctx_author ctx) (ctx_member_count ctx)));;
           ccall (CtxSend (text_message
                             ("✅ Test welcome message sent to " +:+
                              channel_mention (channel_id welcome_channel))
                             (Some 8))))
          (fun e =>
             clog log_exception_level "Error sending test welcome";;
             ccall (CtxSend (text_message
                               ("❌ Error sending test welcome message: " +:+
                                exn_text e)
                               None)))
      else
        g ← cget;
        ccall (CtxSend (text_message
                          ("❌ Welcome channel not found or not in this guild (ID: " +:+
                           pretty (WELCOME_CHANNEL_ID g) +:+ ")")
                          (Some 10)))
  | None =>
      g ← cget;
      ccall (CtxSend (text_message
                        ("❌ Welcome channel not found or not in this guild (ID: " +:+
                         pretty (WELCOME_CHANNEL_ID g) +:+ ")")
                        (Some 10)))
  end.

(** What [on_member_join] reads from [member]. *)
Record Member := mkMember {
  member_id : Z;
  member_name : string;         (* str(member) *)
  member_guild : Z;             (* member.guild.id *)
  member_guild_name : string;
  member_guild_count : Z        (* member.guild.member_count *)
}.

Definition target_guild_id : Z := 1349505197210206350.

(** [on_member_join] (lines 560-577) *)
Definition on_member_join (member : Member) : cmd unit :=
  clog log_info ("Member joined: " +:+ member_name member +:+ " in guild " +:+
                 member_guild_name member +:+ " (" +:+
                 pretty (member_guild member) +:+ "). Member count: " +:+
                 pretty (member_guild_count member));;
  if decide (member_guild member ≠ target_guild_id) then mret tt
  else
    g ← cget;
    match get_channel (WELCOME_CHANNEL_ID g) with
    | None =>
        g ← cget;
        clog log_error ("Welcome channel ID " +:+
                        pretty (WELCOME_CHANNEL_ID g) +:+
                        " not found in bot caches for guild " +:+
                        member_guild_name member)
    | Some welcome_channel =>
        ctry
          (ccall (WelcomeChannelSend (channel_id welcome_channel)
                    (welcome_message (member_id member)
                       (member_guild_count member))))
          (fun _ => clog log_exception_level "Failed to send welcome message")
    end.

End Events.

(** *** Configuration and entry point (lines 32-44, 580-605) *)

(** [BotConfig.validate_config], with [TOKEN] as an argument. *)
Definition validate_config (token : option string) : bool * list string :=
  let errors :=
    if truthy token then [] else ["DISCORD_BOT_TOKEN is required"] in
  (bool_decide (length errors = 0%nat), errors).

(** [NebraskaBot.run] *)
Definition NebraskaBot_run (token : option string) : cmd unit :=
  match token with
  | Some (String _ _ as token) => ccall BotSetup;; ccall (BotStart token)
  | _ => CRaise (mkExn exn_Exception "Bot token missing")
  end.

(** [for e in errors: logger.error(f"  - {e}")] *)
Fixpoint log_errors (errors : list string) : cmd unit :=
  match errors with
  | [] => mret tt
  | e :: rest => clog log_error ("  - " +:+ e);; log_errors rest
  end.

(** [main], with [BotConfig.TOKEN] as an argument. *)
Definition main (token : option string) : cmd unit :=
  clog log_info "Starting Nebraska State Roleplay bot";;
  let '(is_valid, errors) := validate_config token in
  if negb is_valid then
    clog log_error "Config validation failed:";;
    log_errors errors
  else
    ctry_with (NebraskaBot_run token)
      (fun exc =>
         match exn_class exc with
         | exn_KeyboardInterrupt => Some (clog log_info "Bot stopped by user")
         | exn_Exception =>
             Some (clog log_exception_level ("Bot crashed: " +:+ exn_text exc))
         | exn_BaseException => None
         end).

(** *** Sample runtime functions

    [str.lower], [str.capitalize] and [str.split] as they act on ASCII text
    whose only white space is the space character; the commands take the
    runtime's functions as parameters, these instances serve in examples. *)

Definition ascii_lower_char (c : Ascii.ascii) : Ascii.ascii :=
  let n := Ascii.nat_of_ascii c in
  if (Nat.leb 65 n && Nat.leb n 90)%bool then Ascii.ascii_of_nat (n + 32)
  else c.

Definition ascii_upper_char (c : Ascii.ascii) : Ascii.ascii :=
  let n := Ascii.nat_of_ascii c in
  if (Nat.leb 97 n && Nat.leb n 122)%bool then Ascii.ascii_of_nat (n - 32)
  else c.

Fixpoint ascii_lower (s : string) : string :=
  match s with
  | EmptyString => EmptyString
  | String c rest => String (ascii_lower_char c) (ascii_lower rest)
  end.

Definition ascii_capitalize (s : string) : string :=
  match s with
  | EmptyString => EmptyString
  | String c rest => String (ascii_upper_char c) (ascii_lower rest)
  end.

Fixpoint words_from (word : string) (s : string) : list string :=
  match s with
  | EmptyString => match word with EmptyString => [] | _ => [word] end
  | String c rest =>
      if Ascii.eqb c (Ascii.ascii_of_nat 32) then
        match word with EmptyString => [] | _ => [word] end ++
        words_from EmptyString rest
      else words_from (word +:+ String c EmptyString) rest
  end.

Definition ascii_split (s : string) : list string := words_from EmptyString s.

(** What a new process finds in the state file: the dictionary, when the
    file holds one and can be read. *)
Definition readable_state (io : CtxCall -> option Exn) (d : Disk)
  : gmap string Z :=
  match d, io FileOpenRead with
  | json_file s, None => s
  | _, _ => ∅
  end.

(** The message by which [setwelcome] confirms the update. *)
Definition welcome_updated (channel : Z) : Outbound :=
  text_message ("Welcome channel updated to " +:+ channel_mention channel)
               (Some 10).

(** The dictionary [setwelcome] stores. *)
Definition updated_state (channel : Z) (g : Globals) : gmap string Z :=
  <["welcome_channel_id" := channel]> (state g).

(** The state file after [save_state s]. *)
Definition disk_after_save (io : CtxCall -> option Exn) (s : gmap string Z)
    (d : Disk) : Disk :=
  match io FileOpenWrite with
  | Some _ => d
  | None => match io (JsonDump s) with
            | Some _ => corrupt_file
            | None => json_file s
            end
  end.

(** *** Vocabulary of the properties and sample environments *)

(** The voter count is below the threshold. *)
Definition below_threshold (T : Z) (v : View) : Prop :=
  len (voters v) < T ∧ vote_threshold v = T.

(** The reply fails; every other call is delivered. *)
Definition io_no_reply (c : Call) : bool :=
  match c with
  | MessageReply _ => false
  | _ => true
  end.

(** [cprepend tr o]: the outcome [o] after the events [tr]. *)
Definition cprepend {A : Type} (tr : list CmdEvent) (o : CmdOutcome A)
  : CmdOutcome A :=
  mkCmdOutcome (co_globals o) (tr ++ co_trace o) (co_result o).

(** The outcomes of the calls raise nothing but [Exception]s. *)
Definition only_exceptions (io : CtxCall -> option Exn) : Prop :=
  ∀ c e, io c = Some e -> exn_class e = exn_Exception.

(** A command context of the guild, with its author and the roles of the
    author. *)
Definition ctx_of (author : Z) (roles : list Z) : Context :=
  mkContext author "staff#0001" roles 1349505197210206350 120 1700000000
            "01/01/2026 12:00 PM UTC".

(** The globals of a first start: default channel, no state file. *)
Definition globals0 : Globals := mkGlobals DEFAULT_WELCOME_CHANNEL_ID ∅ no_file.

(** Every call returns. *)
Definition cio_ok : CtxCall -> option Exn := fun _ => None.

(** The state file cannot be opened for reading. *)
Definition cio_read_fails (c : CtxCall) : option Exn :=
  match c with
  | FileOpenRead => Some (mkExn exn_Exception "Permission denied")
  | _ => None
  end.

(** [json.dump] fails; every other call returns. *)
Definition cio_dump_fails (c : CtxCall) : option Exn :=
  match c with
  | JsonDump _ => Some (mkExn exn_Exception "No space left on device")
  | _ => None
  end.

(** The calls of a trace, in order. *)
Definition calls_of (tr : list CmdEvent) : list CtxCall :=
  omap (λ ev, match ev with CmdCall c _ => Some c | CmdLog _ _ => None end) tr.

(** A channel cache that holds channel 4242 of the guild. *)
Definition cache1 (cid : Z) : option Channel :=
  if decide (cid = 4242) then Some (mkChannel 4242 1349505197210206350)
  else None.

(** A member who joins the guild. *)
Definition member1 : Member :=
  mkMember 31 "newcomer#0002" 1349505197210206350 "Nebraska State Roleplay" 121.

(** The confirmation (the message deleted after 8 seconds) cannot be sent. *)
Definition cio_confirmation_fails (c : CtxCall) : option Exn :=
  match c with
  | CtxSend (mkOutbound _ _ _ (Some 8)) =>
      Some (mkExn exn_Exception "Missing Permissions")
  | _ => None
  end.

(** * Properties *)

(** ** Running programs *)

Lemma run_bind {A B : Type} (io : Call -> bool) (p : prog A)
    (f : A -> prog B) (v : View) :
  run io (p ≫= f) v =
    match out_result (run io p v) with
    | Some a =>
        prepend (out_trace (run io p v)) (run io (f a) (out_view (run io p v)))
    | None => mkOutcome (out_view (run io p v)) (out_trace (run io p v)) None
    end.
Proof.
  revert v. induction p as [a| |k IH|v' k IH|c kok IHok kexn IHexn|msg k IH];
    intros v; cbn.
  - by destruct (run io (f a) v).
  - done.
  - apply IH.
  - apply IH.
  - change (prog_bind f ?q) with (q ≫= f).
    destruct (io c); [rewrite IHok|rewrite IHexn];
      by destruct (out_result (run io _ v)).
  - change (prog_bind f ?q) with (q ≫= f). rewrite IH.
    by destruct (out_result (run io k v)).
Qed.

(** ** Sizes of the voter set *)

Lemma len_add (s : gset Z) (uid : Z) :
  uid ∉ s -> len (s ∪ {[uid]}) = len s + 1.
Proof.
  intros Hnew. unfold len.
  rewrite size_union by set_solver. rewrite size_singleton. lia.
Qed.

Lemma len_remove (s : gset Z) (uid : Z) :
  uid ∈ s -> len (s ∖ {[uid]}) = len s - 1.
Proof.
  intros Hin. unfold len.
  assert (size s = size (s ∖ {[uid]}) + 1)%nat as ->; [|lia].
  rewrite <- (size_singleton (C:=gset Z) uid).
  rewrite <- size_union by set_solver.
  f_equal. apply leibniz_equiv. apply set_equiv. intros w.
  destruct (decide (w = uid)); set_solver.
Qed.

Lemma len_empty : len ∅ = 0.
Proof. done. Qed.

(** ** The three paths of [vote_button] in closed form *)

Lemma run_delete_vote_message (io : Call -> bool) (i : Interaction) (v : View) :
  run io (delete_vote_message i) v = mkOutcome v (delete_trace io i) (Some tt).
Proof.
  unfold delete_vote_message, delete_trace, fallback_trace.
  destruct (has_message i); cbn; [|done].
  destruct (io MessageDelete); cbn; [done|].
  destruct (io ResponseDefer); cbn; [|done].
  by destruct (io DeleteOriginalResponse).
Qed.

Section Paths.
Variable set_iter : gset Z -> list Z.
Variable io : Call -> bool.

Lemma run_vote_remove (i : Interaction) (v : View) :
  user_id i ∈ voters v ->
  let v' := removed_view v (user_id i) in
  let edit := ResponseEditMessage (vote_label v') in
  let ack := vote_removed_ack (len (voters v')) (vote_threshold v) in
  run io (vote_button set_iter i) v =
    mkOutcome v'
      (EvCall edit (io edit) :: if io edit then [EvCall ack (io ack)] else [])
      (if io edit && io ack then Some tt else None).
Proof.
  intros Hin. unfold vote_button. cbn.
  rewrite decide_True by done. cbn. rewrite decide_True by done. cbn.
  destruct (io (ResponseEditMessage _)); cbn; [|done].
  by destruct (io (vote_removed_ack _ _)).
Qed.

Lemma run_vote_add_below (i : Interaction) (v : View) :
  user_id i ∉ voters v ->
  ¬ vote_threshold v - len (voters v ∪ {[user_id i]}) ≤ 0 ->
  let v' := added_view v (user_id i) in
  let edit := ResponseEditMessage (vote_label v') in
  let ack := vote_counted_ack (vote_threshold v - len (voters v')) in
  run io (vote_button set_iter i) v =
    mkOutcome v'
      (EvCall edit (io edit) :: if io edit then [EvCall ack (io ack)] else [])
      (if io edit && io ack then Some tt else None).
Proof.
  intros Hnew Hbelow. unfold vote_button. cbn.
  rewrite decide_False by done. cbn.
  destruct (io (ResponseEditMessage _)); cbn; [|done].
  rewrite decide_False by done. cbn.
  by destruct (io (vote_counted_ack _)).
Qed.

Lemma run_vote_add_start (i : Interaction) (v : View) :
  user_id i ∉ voters v ->
  vote_threshold v - len (voters v ∪ {[user_id i]}) ≤ 0 ->
  let v' := added_view v (user_id i) in
  let edit := ResponseEditMessage (vote_label v') in
  let ann := announcement v' i in
  let reply := voters_reply (set_iter (voters v')) in
  run io (vote_button set_iter i) v =
    mkOutcome
      (if io edit && io ann && io reply then reset_view v else v')
      (EvCall edit (io edit) ::
       if io edit then
         delete_trace io i ++ EvCall ann (io ann) ::
         (if io ann then [EvCall reply (io reply)] else [])
       else [])
      (if io edit && io ann && io reply then Some tt else None).
Proof.
  intros Hnew Hcross. unfold vote_button. cbn.
  rewrite decide_False by done. cbn.
  destruct (io (ResponseEditMessage _)); cbn; [|done].
  rewrite decide_True by done.
  rewrite run_bind, run_delete_vote_message. cbn.
  unfold prepend, emit. cbn.
  destruct (io (announcement _ i)); cbn; [|reflexivity].
  destruct (io (voters_reply _)); reflexivity.
Qed.

End Paths.

(** ** When a click starts the session *)

Lemma started_delete_trace (io : Call -> bool) (i : Interaction) :
  existsb is_announcement (delete_trace io i) = false.
Proof.
  unfold delete_trace, fallback_trace.
  repeat (match goal with |- context [if ?b then _ else _] => destruct b end;
          cbn); reflexivity.
Qed.

Section Started.
Variable set_iter : gset Z -> list Z.
Variable io : Call -> bool.

(** The session-start flow is entered exactly by a crossing click whose
    label edit went through. *)
Lemma session_started_vote (i : Interaction) (v : View) :
  session_started (run io (vote_button set_iter i) v) =
    bool_decide (crossing v (user_id i)) &&
    io (ResponseEditMessage (vote_label (added_view v (user_id i)))).
Proof.
  unfold session_started, crossing.
  destruct (decide (user_id i ∈ voters v)) as [Hin|Hnew].
  - rewrite run_vote_remove by done. cbn.
    rewrite bool_decide_eq_false_2 by tauto.
    by destruct (io (ResponseEditMessage _)).
  - destruct (decide (vote_threshold v - len (voters v ∪ {[user_id i]}) ≤ 0))
      as [Hcross|Hbelow].
    + rewrite run_vote_add_start by done. cbn.
      rewrite bool_decide_eq_true_2 by tauto. cbn.
      destruct (io (ResponseEditMessage _)); [|done].
      rewrite existsb_app, started_delete_trace. cbn. done.
    + rewrite run_vote_add_below by done. cbn.
      rewrite bool_decide_eq_false_2 by tauto.
      by destruct (io (ResponseEditMessage _)).
Qed.

(** The voter set a click leaves behind: the toggled set, or the empty
    set once the session-start flow has run to its end. *)
Lemma voters_after_vote (i : Interaction) (v : View) :
  let o := run io (vote_button set_iter i) v in
  voters (out_view o) =
    if session_started o && bool_decide (is_Some (out_result o)) then ∅
    else spec_toggle (voters v) (user_id i).
Proof.
  cbn zeta. rewrite session_started_vote. unfold spec_toggle, crossing.
  destruct (decide (user_id i ∈ voters v)) as [Hin|Hnew].
  - rewrite run_vote_remove by done. cbn.
    by rewrite bool_decide_eq_false_2 by tauto.
  - destruct (decide (vote_threshold v - len (voters v ∪ {[user_id i]}) ≤ 0))
      as [Hcross|Hbelow].
    + rewrite run_vote_add_start by done. cbn.
      rewrite bool_decide_eq_true_2 by tauto. cbn.
      destruct (io (ResponseEditMessage _)); cbn; [|done].
      destruct (io (announcement _ i)); cbn; [|done].
      by destruct (io (voters_reply _)).
    + rewrite run_vote_add_below by done. cbn.
      by rewrite bool_decide_eq_false_2 by tauto.
Qed.

Lemma fields_after_vote (i : Interaction) (v : View) :
  let o := run io (vote_button set_iter i) v in
  vote_threshold (out_view o) = vote_threshold v ∧
  starter (out_view o) = starter v.
Proof.
  cbn zeta.
  destruct (decide (user_id i ∈ voters v)) as [Hin|Hnew].
  - by rewrite run_vote_remove by done.
  - destruct (decide (vote_threshold v - len (voters v ∪ {[user_id i]}) ≤ 0))
      as [Hcross|Hbelow].
    + rewrite run_vote_add_start by done. cbn.
      by destruct (_ && _).
    + by rewrite run_vote_add_below by done.
Qed.

End Started.

Lemma spec_toggle_other (s : gset Z) (uid w : Z) :
  w ≠ uid -> w ∈ spec_toggle s uid ↔ w ∈ s.
Proof. unfold spec_toggle. case_decide; set_solver. Qed.

Lemma spec_toggle_twice (s : gset Z) (uid : Z) :
  spec_toggle (spec_toggle s uid) uid = s.
Proof.
  unfold spec_toggle. apply leibniz_equiv. apply set_equiv. intros w.
  destruct (decide (w = uid)) as [->|]; repeat case_decide; set_solver.
Qed.

Lemma len_spec_toggle (s : gset Z) (uid : Z) :
  len (spec_toggle s uid) = if decide (uid ∈ s) then len s - 1 else len s + 1.
Proof.
  unfold spec_toggle. case_decide; [by apply len_remove|by apply len_add].
Qed.

(** * The claims *)

(** ** C5: construction *)

(** C5 (as the code has it): the constructor performs no validation of the
    threshold.  For every integer threshold, positive or not, construction
    succeeds with an empty voter set, that threshold, the given starter and
    the label "Vote (0)"; the first click on a view constructed with a
    threshold [<= 0] (calls delivered) starts the session at once. *)
Theorem init_accepts_every_threshold (threshold : Z) (st : option Z) :
  ∃ v, SessionVoteView_init threshold st = Ok v ∧
       voters v = ∅ ∧ vote_threshold v = threshold ∧ starter v = st ∧
       vote_label v = "Vote (0)" ∧
       (threshold ≤ 0 -> ∀ set_iter i,
          session_started (run io_ok (vote_button set_iter i) v) = true).
Proof.
  exists (mkView ∅ threshold st "Vote (0)"). split_and!; try reflexivity.
  intros Hle set_iter i. rewrite session_started_vote. unfold io_ok.
  rewrite andb_true_r. apply bool_decide_eq_true_2. split; cbn.
  - set_solver.
  - rewrite len_add by set_solver. rewrite len_empty. lia.
Qed.

Lemma init_accepts_every_threshold_witness :
  ∃ v, SessionVoteView_init 0 None = Ok v ∧
       session_started (run io_ok (vote_button elements (click 1)) v) = true.
Proof.
  destruct (init_accepts_every_threshold 0 None)
    as (v & Hv & _ & _ & _ & _ & Hstart).
  exists v. split; [exact Hv|]. apply Hstart. lia.
Defined.

(** C5, refuted as stated: construction with threshold 0 (and with a
    negative threshold) does not fail. *)
Lemma init_nonpositive_threshold_counterexample :
  SessionVoteView_init 0 None = Ok (mkView ∅ 0 None "Vote (0)") ∧
  SessionVoteView_init (-3) (Some 99) ≠ Raised.
Proof. split; [reflexivity|discriminate]. Qed.

(** ** C6: a remove-toggle *)

(** C6: for every view, every outcome of the awaited calls and every user
    already in the voter set, a click by that user never enters the
    session-start flow, whatever the threshold; the voter count goes down
    by exactly one, the label shows the new count, and the handler edits
    the message and then acknowledges "Vote removed!". *)
Theorem remove_toggle_never_starts (set_iter : gset Z -> list Z)
    (io : Call -> bool) (i : Interaction) (v : View) :
  user_id i ∈ voters v ->
  let o := run io (vote_button set_iter i) v in
  let count := len (voters (out_view o)) in
  let edit := ResponseEditMessage (vote_label_of count) in
  let ack := vote_removed_ack count (vote_threshold v) in
  session_started o = false ∧
  (user_id i ∉ voters (out_view o)) ∧
  count = len (voters v) - 1 ∧ count < len (voters v) ∧
  vote_label (out_view o) = vote_label_of count ∧
  out_trace o =
    EvCall edit (io edit) :: (if io edit then [EvCall ack (io ack)] else []).
Proof.
  intros Hin. cbn zeta. rewrite session_started_vote.
  rewrite run_vote_remove by done. cbn.
  rewrite len_remove by done.
  split_and!; try done; try lia.
  - rewrite bool_decide_eq_false_2; [done|]. unfold crossing. tauto.
  - set_solver.
Qed.

Lemma remove_toggle_never_starts_witness :
  let o := run io_ok (vote_button elements (click 2)) (view_of {[1; 2; 3]} 2) in
  session_started o = false ∧ len (voters (out_view o)) = 2 ∧
  out_trace o =
    [EvCall (ResponseEditMessage "Vote (2)") true;
     EvCall (FollowupSend "Vote removed! (2/2)" true) true].
Proof.
  assert (user_id (click 2) ∈ voters (view_of {[1; 2; 3]} 2)) as Hin
    by (vm_compute; reflexivity).
  destruct (remove_toggle_never_starts elements io_ok _ _ Hin)
    as (Hs & _ & Hc & _ & _ & Htr).
  split_and!; [exact Hs|rewrite Hc|rewrite Htr]; vm_compute; reflexivity.
Defined.

(** ** C7: toggling twice *)

(** C7: while the session is collecting, that is, when neither of the two
    clicks enters the session-start flow, two clicks in a row by the same
    user leave the voter set (hence the count) as it was, the first click
    having flipped that user's membership; this holds for every view and
    whatever the outcomes of the awaited calls. *)
Theorem toggle_twice_restores (set_iter : gset Z -> list Z)
    (io1 io2 : Call -> bool) (i : Interaction) (v : View) :
  let o1 := run io1 (vote_button set_iter i) v in
  let o2 := run io2 (vote_button set_iter i) (out_view o1) in
  session_started o1 = false ->
  session_started o2 = false ->
  (user_id i ∈ voters (out_view o1) ↔ user_id i ∉ voters v) ∧
  voters (out_view o2) = voters v ∧
  len (voters (out_view o2)) = len (voters v).
Proof.
  cbn zeta. intros Hs1 Hs2.
  pose proof (voters_after_vote set_iter io1 i v) as Hv1.
  pose proof (voters_after_vote set_iter io2 i
                (out_view (run io1 (vote_button set_iter i) v))) as Hv2.
  cbn zeta in Hv1, Hv2. rewrite Hs1 in Hv1. rewrite Hs2 in Hv2.
  cbn [andb] in Hv1, Hv2.
  assert (voters (out_view (run io2 (vote_button set_iter i)
            (out_view (run io1 (vote_button set_iter i) v)))) = voters v)
    as Heq by (rewrite Hv2, Hv1; apply spec_toggle_twice).
  split_and!.
  - rewrite Hv1. unfold spec_toggle. case_decide; set_solver.
  - exact Heq.
  - by rewrite Heq.
Qed.

Lemma toggle_twice_restores_witness :
  let o1 := run io_ok (vote_button elements (click 2)) (view_of {[1]} 3) in
  let o2 := run io_ok (vote_button elements (click 2)) (out_view o1) in
  voters (out_view o1) = {[1; 2]} ∧ voters (out_view o2) = {[1]}.
Proof.
  cbn zeta. split; [vm_compute; reflexivity|].
  refine (proj1 (proj2 (toggle_twice_restores elements io_ok io_ok (click 2)
                          (view_of {[1]} 3) _ _)));
    vm_compute; reflexivity.
Defined.

(** ** C8: an add-toggle below the threshold *)

(** C8: for every view and every user not yet in the voter set whose vote
    leaves the count below the threshold, the click (its calls delivered)
    adds the user, sets the button label to "Vote (<count>)" where count is
    the new size of the voter set, edits the message with that label and
    acknowledges with the text "Vote counted! **<remaining>** more votes
    needed to start the session." where remaining = threshold - count > 0.
    The acknowledgement of a remove-toggle, on whatever view, is a different
    message. *)
Theorem add_below_threshold_updates (set_iter : gset Z -> list Z)
    (i : Interaction) (v : View) :
  (user_id i ∉ voters v) ->
  len (voters v) + 1 < vote_threshold v ->
  let o := run io_ok (vote_button set_iter i) v in
  let count := len (voters (out_view o)) in
  let remaining := vote_threshold v - count in
  voters (out_view o) = voters v ∪ {[user_id i]} ∧
  count = len (voters v) + 1 ∧
  0 < remaining ∧
  vote_label (out_view o) = "Vote (" +:+ pretty count +:+ ")" ∧
  out_trace o =
    [EvCall (ResponseEditMessage ("Vote (" +:+ pretty count +:+ ")")) true;
     EvCall (FollowupSend
               ("Vote counted! **" +:+ pretty remaining +:+
                "** more votes needed to start the session.")
               true)
            true] ∧
  out_result o = Some tt ∧
  session_started o = false ∧
  (∀ (i' : Interaction) (v' : View),
     user_id i' ∈ voters v' ->
     last (out_trace (run io_ok (vote_button set_iter i') v')) ≠
     last (out_trace o)).
Proof.
  intros Hnew Hbelow. cbn zeta.
  assert (¬ vote_threshold v - len (voters v ∪ {[user_id i]}) ≤ 0) as Hb
    by (rewrite len_add by done; lia).
  rewrite session_started_vote, run_vote_add_below by done.
  split_and!.
  1-7: cbn; rewrite ?len_add by done;
       rewrite ?bool_decide_eq_false_2 by (unfold crossing; tauto);
       first [reflexivity | lia].
  intros i' v' Hin. rewrite run_vote_remove by done.
  unfold vote_counted_ack, vote_removed_ack. cbn. discriminate.
Qed.

Lemma add_below_threshold_updates_witness :
  let o := run io_ok (vote_button elements (click 3)) (view_of {[1; 2]} 8) in
  len (voters (out_view o)) = 3 ∧
  vote_label (out_view o) = "Vote (3)" ∧
  out_trace o =
    [EvCall (ResponseEditMessage "Vote (3)") true;
     EvCall (FollowupSend
       "Vote counted! **5** more votes needed to start the session." true)
       true].
Proof.
  cbn zeta.
  assert (user_id (click 3) ∉ voters (view_of {[1; 2]} 8)) as Hnew
    by (vm_compute; intros H; discriminate H).
  assert (len (voters (view_of {[1; 2]} 8)) + 1 <
          vote_threshold (view_of {[1; 2]} 8)) as Hbelow
    by (vm_compute; reflexivity).
  destruct (add_below_threshold_updates elements _ _ Hnew Hbelow)
    as (_ & Hc & _ & Hl & Htr & _).
  split_and!; [rewrite Hc|rewrite Hl, Hc|rewrite Htr, Hc];
    vm_compute; reflexivity.
Defined.

(** Scenario A: threshold 8, users 1..7 each vote once.  The counts are
    1..7, the labels "Vote (1)" .. "Vote (7)" and the acknowledgements ask
    for 7..1 more votes. *)
Lemma scenario_A_first_seven_votes :
  match SessionVoteView_init 8 (Some 99) with
  | Ok v =>
      (λ o, (len (voters (out_view o)), out_trace o)) <$>
        run_clicks elements io_ok v (click <$> [1; 2; 3; 4; 5; 6; 7])
  | Raised => []
  end = scenario_A_updates.
Proof. vm_compute. reflexivity. Qed.

(** ** C10: what a click leaves untouched *)

Lemma run_view_voters (set_iter : gset Z -> list Z) (io : Call -> bool)
    (i : Interaction) (v : View) :
  out_view (run io (view_voters_button set_iter i) v) = v.
Proof.
  unfold view_voters_button. cbn. case_decide; cbn.
  - by destruct (io _).
  - by destruct (io _).
Qed.

(** C10 (as the code has it): neither a click on the vote button nor a
    click on the view-voters button ever changes the threshold or the
    recorded starter, and the view-voters handler changes nothing at all.
    A vote click that does not enter the session-start flow changes only
    the clicking user's membership: it leaves the toggled set, and every
    other user is a member afterwards exactly when they were before.  A
    click that enters the session-start flow leaves the empty set when its
    announcement and its voters reply are delivered, so it removes every
    other member too; when one of the two raises it leaves the set with the
    clicking user added. *)
Theorem vote_click_frame (set_iter : gset Z -> list Z) (io : Call -> bool)
    (i : Interaction) (v : View) :
  let o := run io (vote_button set_iter i) v in
  let ann := announcement v i in
  let reply := voters_reply (set_iter (voters v ∪ {[user_id i]})) in
  vote_threshold (out_view o) = vote_threshold v ∧
  starter (out_view o) = starter v ∧
  out_view (run io (view_voters_button set_iter i) v) = v ∧
  (session_started o = false ->
   voters (out_view o) = spec_toggle (voters v) (user_id i) ∧
   ∀ w, w ≠ user_id i -> w ∈ voters (out_view o) ↔ w ∈ voters v) ∧
  (session_started o = true ->
   voters (out_view o) =
     if io ann && io reply then ∅ else voters v ∪ {[user_id i]}).
Proof.
  cbn zeta.
  destruct (fields_after_vote set_iter io i v) as [Ht Hs].
  pose proof (voters_after_vote set_iter io i v) as Hv. cbn zeta in Hv.
  split_and!; [exact Ht|exact Hs|apply run_view_voters| |].
  - intros Hns. rewrite Hns in Hv. cbn [andb] in Hv. rewrite Hv.
    split; [done|]. intros w Hw. by apply spec_toggle_other.
  - clear Hv. rewrite session_started_vote.
    intros [Hc Hedit]%andb_prop.
    apply bool_decide_eq_true_1 in Hc as [Hnew Hcross].
    rewrite run_vote_add_start by done. rewrite Hedit. cbn.
    by destruct (_ && _).
Qed.

Lemma vote_click_frame_witness :
  let o := run io_ok (vote_button elements (click 2)) (view_of {[1]} 3) in
  let o' := run io_ok (vote_button elements (click 3)) (view_of {[1; 2]} 3) in
  (1 ∈ voters (out_view o) ↔ 1 ∈ voters (view_of {[1]} 3)) ∧
  vote_threshold (out_view o) = 3 ∧
  voters (out_view o') = ∅.
Proof.
  cbn zeta.
  destruct (vote_click_frame elements io_ok (click 2) (view_of {[1]} 3))
    as (Ht & _ & _ & Hframe & _).
  destruct (vote_click_frame elements io_ok (click 3) (view_of {[1; 2]} 3))
    as (_ & _ & _ & _ & Hstart).
  split_and!; [|exact Ht|].
  - apply Hframe; [vm_compute; reflexivity|discriminate].
  - rewrite Hstart; [reflexivity|vm_compute; reflexivity].
Defined.

(** C10, refuted as stated: with threshold 2 and voter set {1}, the click
    by user 2 starts the session and user 1, who did not click, is no
    longer a member afterwards. *)
Lemma vote_click_frame_counterexample :
  let v := view_of {[1]} 2 in
  let o := run io_ok (vote_button elements (click 2)) v in
  1 ≠ user_id (click 2) ∧ 1 ∈ voters v ∧ (1 ∉ voters (out_view o)) ∧
  voters (out_view o) = ∅.
Proof.
  cbn zeta. split_and!.
  - discriminate.
  - vm_compute. reflexivity.
  - vm_compute. intros H. discriminate H.
  - vm_compute. reflexivity.
Qed.

(** ** C1: the first start, and the starts after it *)

Section Sequences.
Variable set_iter : gset Z -> list Z.
Variable io : Call -> bool.
Hypothesis io_delivers : delivers io.

Lemma delivered_vote_calls (i : Interaction) (v : View) (l : string)
    (uids : list Z) :
  io (ResponseEditMessage l) = true ∧ io (announcement v i) = true ∧
  io (voters_reply uids) = true ∧
  (∀ n, io (vote_counted_ack n) = true).
Proof. split_and!; intros; by apply io_delivers. Qed.

Lemma started_delivered (i : Interaction) (v : View) :
  session_started (run io (vote_button set_iter i) v) =
    bool_decide (vote_threshold v ≤ len (spec_toggle (voters v) (user_id i)) ∧
                 user_id i ∉ voters v).
Proof.
  rewrite session_started_vote.
  rewrite (proj1 (delivered_vote_calls i v _ [])), andb_true_r.
  apply bool_decide_ext. unfold crossing. rewrite len_spec_toggle.
  case_decide.
  - tauto.
  - rewrite len_add by done. split; intros [? ?]; split; (done || lia).
Qed.

Lemma view_after_start (i : Interaction) (v : View) :
  session_started (run io (vote_button set_iter i) v) = true ->
  out_view (run io (vote_button set_iter i) v) = reset_view v.
Proof.
  rewrite session_started_vote. intros [Hc _]%andb_prop.
  apply bool_decide_eq_true_1 in Hc as [Hnew Hcross].
  rewrite run_vote_add_start by done.
  destruct (delivered_vote_calls i (added_view v (user_id i))
              (vote_label (added_view v (user_id i)))
              (set_iter (voters (added_view v (user_id i)))))
    as (-> & -> & -> & _).
  reflexivity.
Qed.

Lemma view_without_start (i : Interaction) (v : View) :
  session_started (run io (vote_button set_iter i) v) = false ->
  let v' := out_view (run io (vote_button set_iter i) v) in
  voters v' = spec_toggle (voters v) (user_id i) ∧
  vote_threshold v' = vote_threshold v ∧ starter v' = starter v.
Proof.
  intros Hns. cbn zeta.
  pose proof (voters_after_vote set_iter io i v) as Hv. cbn zeta in Hv.
  rewrite Hns in Hv. cbn [andb] in Hv.
  split; [exact Hv|apply fields_after_vote].
Qed.

Lemma count_after_cons (s : gset Z) (i : Interaction)
    (rest : list Interaction) (n : nat) :
  count_after s (take (S n) (i :: rest)) =
    count_after (spec_toggle s (user_id i)) (take n rest).
Proof. reflexivity. Qed.

Lemma count_after_0 (s : gset Z) (clicks : list Interaction) :
  count_after s (take 0 clicks) = len s.
Proof. by rewrite take_0. Qed.

Lemma clicks_until_start (clicks : list Interaction) :
  ∀ (v : View) (k : nat) (o : Outcome unit),
    len (voters v) < vote_threshold v ->
    run_clicks set_iter io v clicks !! k = Some o ->
    (∀ j, (j < k)%nat ->
       count_after (voters v) (take (S j) clicks) < vote_threshold v) ->
    session_started o =
      bool_decide (vote_threshold v ≤
                   count_after (voters v) (take (S k) clicks)) ∧
    (session_started o = true -> out_view o = reset_view v).
Proof.
  induction clicks as [|i rest IH]; intros v k o Hinv Hk Hbefore;
    [done|].
  destruct k as [|k].
  - assert (o = run io (vote_button set_iter i) v) as ->
      by (symmetry; exact (Some_inj _ _ Hk)).
    split; [|apply view_after_start].
    rewrite started_delivered. apply bool_decide_ext.
    rewrite count_after_cons, count_after_0, len_spec_toggle.
    case_decide; [|tauto]. split; [tauto|lia].
  - change (run_clicks set_iter io
              (out_view (run io (vote_button set_iter i) v)) rest !! k =
            Some o) in Hk.
    assert (count_after (voters v) (take 1 (i :: rest)) < vote_threshold v)
      as H0 by (apply Hbefore; lia).
    rewrite count_after_cons, count_after_0 in H0.
    assert (session_started (run io (vote_button set_iter i) v) = false)
      as Hns.
    { rewrite started_delivered. apply bool_decide_eq_false_2. lia. }
    destruct (view_without_start i v Hns) as (Hv & Ht & Hs).
    cbn zeta in Hv, Ht, Hs.
    destruct (IH (out_view (run io (vote_button set_iter i) v)) k o)
      as [IH1 IH2].
    + rewrite Hv, Ht. exact H0.
    + exact Hk.
    + intros j Hj. rewrite Hv, Ht. rewrite <- count_after_cons.
      apply (Hbefore (S j)). lia.
    + rewrite Hv, Ht in IH1. rewrite count_after_cons. split; [exact IH1|].
      intros Hst. rewrite (IH2 Hst). unfold reset_view. by rewrite Ht, Hs.
Qed.

(** The outcomes after the [k]-th click are those of the remaining clicks
    on the view the [k]-th click left. *)
Lemma run_clicks_drop (clicks : list Interaction) :
  ∀ (v : View) (k : nat) (o : Outcome unit),
    run_clicks set_iter io v clicks !! k = Some o ->
    drop (S k) (run_clicks set_iter io v clicks) =
      run_clicks set_iter io (out_view o) (drop (S k) clicks).
Proof.
  induction clicks as [|i rest IH]; intros v k o Hk; [done|].
  destruct k as [|k].
  - assert (o = run io (vote_button set_iter i) v) as ->
      by (symmetry; exact (Some_inj _ _ Hk)).
    reflexivity.
  - apply (IH (out_view (run io (vote_button set_iter i) v)) k o Hk).
Qed.

End Sequences.

Lemma io_ok_delivers : delivers io_ok.
Proof. intros c _. reflexivity. Qed.

Lemma io_no_delete_delivers : delivers io_no_delete.
Proof. intros c Hc. unfold io_no_delete. by rewrite Hc. Qed.

(** C1 (as the code has it): for every threshold T >= 1 and every sequence
    of clicks on one view, handled one after the other with their calls
    delivered (the deletion of the prompt may fail): no click before the
    first one whose resulting voter count is >= T enters the session-start
    flow, and that click does.  The start puts the view back in its initial
    state (empty voter set, label "Vote (0)"), so the clicks after it are
    handled exactly as on a newly constructed view: they count afresh and
    start the session again when the count next reaches T. *)
Theorem first_start_at_first_crossing (set_iter : gset Z -> list Z)
    (io : Call -> bool) (T : Z) (st : option Z) (v0 : View)
    (clicks : list Interaction) (k : nat) (o : Outcome unit) :
  delivers io ->
  1 ≤ T ->
  SessionVoteView_init T st = Ok v0 ->
  run_clicks set_iter io v0 clicks !! k = Some o ->
  (∀ j, (j < k)%nat -> count_after ∅ (take (S j) clicks) < T) ->
  session_started o = bool_decide (T ≤ count_after ∅ (take (S k) clicks)) ∧
  (session_started o = true ->
   out_view o = v0 ∧
   drop (S k) (run_clicks set_iter io v0 clicks) =
     run_clicks set_iter io v0 (drop (S k) clicks)).
Proof.
  intros Hio HT Hinit Hk Hbefore. injection Hinit as <-.
  destruct (clicks_until_start set_iter io Hio clicks
              (mkView ∅ T st "Vote (0)") k o) as [Hst Hreset];
    [|exact Hk|exact Hbefore|].
  { change (len ∅ < T). rewrite len_empty. lia. }
  split; [exact Hst|]. intros Hs. specialize (Hreset Hs).
  split; [exact Hreset|].
  rewrite (run_clicks_drop set_iter io clicks _ k o Hk).
  by rewrite Hreset.
Qed.

Lemma first_start_at_first_crossing_witness :
  ∃ o, run_clicks elements io_no_delete (mkView ∅ 2 (Some 99) "Vote (0)")
         (click <$> [1; 1; 1; 2; 3]) !! 3%nat = Some o ∧
       session_started o = true ∧
       out_view o = mkView ∅ 2 (Some 99) "Vote (0)".
Proof.
  eexists. split; [reflexivity|].
  refine (let H := first_start_at_first_crossing elements io_no_delete 2
                     (Some 99) _ (click <$> [1; 1; 1; 2; 3]) 3 _ _ _
                     eq_refl eq_refl _ in
          conj (proj1 H) (proj1 (proj2 H (proj1 H)))).
  - intros c Hc. unfold io_no_delete. rewrite Hc. reflexivity.
  - lia.
  - intros j Hj.
    destruct j as [|[|[|j]]]; [vm_compute; reflexivity..|lia].
Defined.

(** C1, refuted as stated: with threshold 2 the clicks by users 1, 2, 3, 4
    (the deletion of the prompt failing, so that the prompt stays) enter
    the session-start flow twice, at the second and at the fourth click. *)
Lemma second_start_counterexample :
  match SessionVoteView_init 2 (Some 99) with
  | Ok v => session_started <$>
              run_clicks elements io_no_delete v (click <$> [1; 2; 3; 4])
  | Raised => []
  end = [false; true; false; true].
Proof. vm_compute. reflexivity. Qed.

(** ** C2: a click after the session has started *)

(** C2 (as the code has it): the view keeps no record that the session has
    started and rejects no click.  After a click has run the session-start
    flow (calls delivered; the deletion of the prompt may fail) the view is
    back in its initial state, and the next click is handled like a first
    vote: with a threshold above 1 it adds the clicking user and is
    acknowledged as "Vote counted!" with count 1 and threshold - 1 votes
    remaining; with a threshold of at most 1 it starts the session once
    more. *)
Theorem click_after_start_is_counted (set_iter : gset Z -> list Z)
    (io : Call -> bool) (i i' : Interaction) (v : View) :
  delivers io ->
  let o := run io (vote_button set_iter i) v in
  let o' := run io (vote_button set_iter i') (out_view o) in
  session_started o = true ->
  out_view o = reset_view v ∧
  (1 < vote_threshold v ->
   out_view o' =
     mkView {[user_id i']} (vote_threshold v) (starter v) "Vote (1)" ∧
   out_trace o' =
     [EvCall (ResponseEditMessage "Vote (1)") true;
      EvCall (vote_counted_ack (vote_threshold v - 1)) true] ∧
   out_result o' = Some tt) ∧
  (vote_threshold v ≤ 1 ->
   session_started o' = true ∧ out_view o' = reset_view v).
Proof.
  intros Hio. cbn zeta. intros Hst.
  rewrite (view_after_start set_iter io Hio i v Hst).
  assert (user_id i' ∉ voters (reset_view v)) as Hnew by (cbn; set_solver).
  assert ((∅ : gset Z) ∪ {[user_id i']} = {[user_id i']}) as Hu by set_solver.
  assert (len {[user_id i']} = 1) as Hlen
    by (unfold len; by rewrite size_singleton).
  split_and!; [done| |].
  - intros HT.
    rewrite run_vote_add_below; [|done|cbn; rewrite Hu, Hlen; lia].
    unfold added_view. cbn. rewrite Hu, Hlen.
    destruct (delivered_vote_calls io Hio i' v (vote_label_of 1) [])
      as (-> & _ & _ & ->).
    done.
  - intros HT.
    assert (session_started
              (run io (vote_button set_iter i') (reset_view v)) = true)
      as Hst'.
    { rewrite (started_delivered set_iter io Hio).
      apply bool_decide_eq_true_2.
      rewrite len_spec_toggle, decide_False by done.
      change (vote_threshold v ≤ len ∅ + 1 ∧ user_id i' ∉ voters (reset_view v)).
      rewrite len_empty. split; [lia|done]. }
    split; [exact Hst'|]. by rewrite (view_after_start set_iter io Hio).
Qed.

Lemma click_after_start_is_counted_witness :
  let v := view_of {[1; 2; 3; 4; 5; 6; 7]} 8 in
  let o := run io_no_delete (vote_button elements (click 8)) v in
  let o' := run io_no_delete (vote_button elements (click 9)) (out_view o) in
  session_started o = true ∧
  out_view o' = mkView {[9]} 8 (Some 99) "Vote (1)".
Proof.
  cbn zeta.
  assert (delivers io_no_delete) as Hio
    by (intros c Hc; unfold io_no_delete; rewrite Hc; reflexivity).
  assert (session_started
            (run io_no_delete (vote_button elements (click 8))
               (view_of {[1; 2; 3; 4; 5; 6; 7]} 8)) = true) as Hst
    by (vm_compute; reflexivity).
  split; [exact Hst|].
  destruct (click_after_start_is_counted elements io_no_delete (click 8)
              (click 9) _ Hio Hst)
    as (_ & Hnext & _).
  destruct Hnext as (Hv & _ & _); [vm_compute; reflexivity|exact Hv].
Defined.

(** C2, refuted as stated (scenario C): threshold 8, users 1..8 vote in
    order and the eighth click starts the session; the deletion of the
    prompt fails on both paths, so the prompt and its buttons stay.  The
    following click by user 9 is not rejected: it is acknowledged as a
    counted vote, 7 more needed, and user 9 becomes the only member of the
    voter set. *)
Lemma click_after_start_counterexample :
  match SessionVoteView_init 8 (Some 99) with
  | Ok v =>
      (λ o, (session_started o, out_trace o, elements (voters (out_view o))))
        <$> drop 7 (run_clicks elements io_no_delete v
                      (click <$> [1; 2; 3; 4; 5; 6; 7; 8; 9]))
  | Raised => []
  end =
  [ (true,
     [EvCall (ResponseEditMessage "Vote (8)") true;
      EvCall MessageDelete false;
      EvCall ResponseDefer false;
      EvLog "Failed to delete original vote message";
      EvCall (announcement (view_of ∅ 8) (click 8)) true;
      EvCall (voters_reply (elements ({[1; 2; 3; 4; 5; 6; 7; 8]} : gset Z)))
        true],
     []);
    (false,
     [EvCall (ResponseEditMessage "Vote (1)") true;
      EvCall (FollowupSend
        "Vote counted! **7** more votes needed to start the session." true)
        true],
     [9]) ].
Proof. vm_compute. reflexivity. Qed.

(** ** C3: the voters mentioned when the session starts *)

(** C3 (as the code has it): when the handler of a click that starts the
    session runs to completion and its calls are delivered (the deletion of
    the prompt may fail), the voters it mentions are the members of the
    voter set at that moment, the clicking user included, each exactly
    once, listed in the order in which the runtime iterates the set
    [self.voters]: the list is a permutation of the members.  For scenario
    A (threshold 8, users 1..8 voting once each, in that order) the
    mentioned list is the iteration of the set {1, ..., 8}, a permutation
    of [1; ...; 8]. *)
Theorem final_voters_enumerate_members (set_iter : gset Z -> list Z)
    (io : Call -> bool) (i : Interaction) (v : View) :
  (∀ s, set_iter s ≡ₚ elements s) ->
  delivers io ->
  let o := run io (vote_button set_iter i) v in
  let final := set_iter (voters v ∪ {[user_id i]}) in
  session_started o = true ->
  out_trace o =
    EvCall (ResponseEditMessage (vote_label_of (len (voters v) + 1))) true ::
    delete_trace io i ++
    [EvCall (announcement v i) true; EvCall (voters_reply final) true] ∧
  mentions_voters o final ∧
  NoDup final ∧
  (∀ w, w ∈ final ↔ w ∈ voters v ∨ w = user_id i) ∧
  Z.of_nat (length final) = len (voters v) + 1 ∧
  final ≡ₚ elements (voters v ∪ {[user_id i]}) ∧
  (∃ o8, last_outcome set_iter 8 [1; 2; 3; 4; 5; 6; 7; 8] = Some o8 ∧
         mentions_voters o8 (set_iter {[1; 2; 3; 4; 5; 6; 7; 8]}) ∧
         set_iter {[1; 2; 3; 4; 5; 6; 7; 8]} ≡ₚ [1; 2; 3; 4; 5; 6; 7; 8]).
Proof.
  intros Hperm Hio. cbn zeta. rewrite session_started_vote.
  intros [Hc _]%andb_prop. apply bool_decide_eq_true_1 in Hc as [Hnew Hcross].
  assert (out_trace (run io (vote_button set_iter i) v) =
          EvCall (ResponseEditMessage (vote_label_of (len (voters v) + 1)))
            true ::
          delete_trace io i ++
          [EvCall (announcement v i) true;
           EvCall (voters_reply (set_iter (voters v ∪ {[user_id i]}))) true])
    as Htr.
  { rewrite run_vote_add_start by done.
    destruct (delivered_vote_calls io Hio i (added_view v (user_id i))
                (vote_label (added_view v (user_id i)))
                (set_iter (voters (added_view v (user_id i)))))
      as (-> & -> & -> & _).
    cbn. by rewrite len_add by done. }
  split_and!.
  - exact Htr.
  - unfold mentions_voters. rewrite Htr.
    apply elem_of_cons. right. apply elem_of_app. right. set_solver.
  - rewrite Hperm. apply NoDup_elements.
  - intros w. rewrite Hperm, elem_of_elements. set_solver.
  - rewrite Hperm, <- (len_add (voters v) (user_id i)) by done. reflexivity.
  - apply Hperm.
  - eexists. split; [reflexivity|]. split.
    + unfold mentions_voters. vm_compute.
      do 3 apply list_elem_of_further. apply list_elem_of_here.
    + rewrite Hperm. apply NoDup_Permutation.
      * apply NoDup_elements.
      * vm_compute. repeat constructor; set_solver.
      * intros w. rewrite elem_of_elements. set_solver.
Qed.

Lemma final_voters_enumerate_members_witness :
  ∃ o, last_outcome elements 8 [1; 2; 3; 4; 5; 6; 7; 8] = Some o ∧
       mentions_voters o (elements ({[1; 2; 3; 4; 5; 6; 7]} ∪ {[8]} : gset Z)) ∧
       elements ({[1; 2; 3; 4; 5; 6; 7]} ∪ {[8]} : gset Z) ≡ₚ
         [1; 2; 3; 4; 5; 6; 7; 8].
Proof.
  exists (run io_ok (vote_button elements (click 8))
            (view_of {[1; 2; 3; 4; 5; 6; 7]} 8)).
  split_and!.
  - vm_compute. reflexivity.
  - refine (proj1 (proj2 (final_voters_enumerate_members elements io_ok
                            (click 8) (view_of {[1; 2; 3; 4; 5; 6; 7]} 8)
                            _ _ _))).
    + intros s. reflexivity.
    + intros c _. reflexivity.
    + vm_compute. reflexivity.
  - apply NoDup_Permutation.
    + apply NoDup_elements.
    + vm_compute. repeat constructor; set_solver.
    + intros w. rewrite elem_of_elements. set_solver.
Defined.

(** C3, refuted as stated: threshold 2, user 2 votes, then user 1.  With
    the members iterated in increasing order (an order that enumerates the
    members once each, and the one CPython uses on this set) the reply
    mentions user 1 before user 2: the mentioned list is [1; 2], not the
    joining order [2; 1]. *)
Lemma joining_order_counterexample :
  (∀ s, increasing_iter s ≡ₚ elements s) ∧
  ∃ o, last_outcome increasing_iter 2 [2; 1] = Some o ∧
       session_started o = true ∧
       mentions_voters o [1; 2] ∧
       ¬ mentions_voters o [2; 1].
Proof.
  split; [intros s; apply merge_sort_Permutation|].
  eexists. split; [reflexivity|]. split_and!.
  - vm_compute. reflexivity.
  - unfold mentions_voters. vm_compute.
    do 3 apply list_elem_of_further. apply list_elem_of_here.
  - unfold mentions_voters. vm_compute. intros Hin.
    repeat (apply elem_of_cons in Hin as [Hin|Hin]; [discriminate Hin|]).
    by apply elem_of_nil in Hin.
Qed.

(** ** C9: deleting the vote prompt *)

Section Delivery.
Variable set_iter : gset Z -> list Z.

(** The outcome of a click depends on the outcomes of the deletion calls
    only through the events of the deletion block. *)
Lemma vote_independent_of_deletion (io io' : Call -> bool)
    (i : Interaction) (v : View) :
  (∀ c, is_deletion_call c = false -> io c = io' c) ->
  let o := run io (vote_button set_iter i) v in
  let o' := run io' (vote_button set_iter i) v in
  out_view o = out_view o' ∧ out_result o = out_result o' ∧
  session_started o = session_started o'.
Proof.
  intros Hagree. cbn zeta. rewrite !session_started_vote.
  assert (∀ l, io (ResponseEditMessage l) = io' (ResponseEditMessage l))
    as Hedit by (intros l; by apply Hagree).
  assert (∀ l e, io (FollowupSend l e) = io' (FollowupSend l e))
    as Hack by (intros l e; by apply Hagree).
  assert (∀ l e w, io (ChannelSend l e w) = io' (ChannelSend l e w))
    as Hann by (intros l e w; by apply Hagree).
  assert (∀ l, io (MessageReply l) = io' (MessageReply l))
    as Hreply by (intros l; by apply Hagree).
  destruct (decide (user_id i ∈ voters v)) as [Hin|Hnew].
  - rewrite !run_vote_remove by done.
    unfold vote_removed_ack. cbn. by rewrite !Hedit, !Hack.
  - destruct (decide (vote_threshold v - len (voters v ∪ {[user_id i]}) ≤ 0))
      as [Hcross|Hbelow].
    + rewrite !run_vote_add_start by done.
      unfold announcement, voters_reply. cbn.
      by rewrite !Hedit, !Hann, !Hreply.
    + rewrite !run_vote_add_below by done.
      unfold vote_counted_ack. cbn. by rewrite !Hedit, !Hack.
Qed.

End Delivery.

(** C9 (as the code has it): a click that enters the session-start flow
    first runs the deletion block.  The block awaits [message.delete()]
    (when the interaction carries a message); if that raises it awaits
    [response.defer()] and [delete_original_response()]; if either of those
    raises it logs "Failed to delete original vote message".  Whatever the
    outcomes of these calls, the handler goes on to the announcement: no
    exception of the deletion leaves the handler, and the view and the
    result the handler ends with are the same for all outcomes of the
    deletion calls.  The announcement and the voters reply are awaited
    outside any [try]: when one of them raises, the exception leaves the
    handler (after a failed announcement the reply is not attempted).  The
    vote that was added is never rolled back, and the threshold and the
    starter stay; the voter set is reset only when both calls were
    delivered. *)
Theorem delete_is_best_effort (set_iter : gset Z -> list Z)
    (io : Call -> bool) (i : Interaction) (v : View) :
  let o := run io (vote_button set_iter i) v in
  let ann := announcement v i in
  let reply := voters_reply (set_iter (voters v ∪ {[user_id i]})) in
  let deletion :=
    if has_message i then
      EvCall MessageDelete (io MessageDelete) ::
      (if io MessageDelete then []
       else
         EvCall ResponseDefer (io ResponseDefer) ::
         (if io ResponseDefer then
            EvCall DeleteOriginalResponse (io DeleteOriginalResponse) ::
            (if io DeleteOriginalResponse then []
             else [EvLog "Failed to delete original vote message"])
          else [EvLog "Failed to delete original vote message"]))
    else [] in
  session_started o = true ->
  out_trace o =
    EvCall (ResponseEditMessage
              ("Vote (" +:+ pretty (len (voters v) + 1) +:+ ")")) true ::
    deletion ++
    EvCall ann (io ann) :: (if io ann then [EvCall reply (io reply)] else []) ∧
  out_result o = (if io ann && io reply then Some tt else None) ∧
  voters (out_view o) =
    (if io ann && io reply then ∅ else voters v ∪ {[user_id i]}) ∧
  vote_threshold (out_view o) = vote_threshold v ∧
  starter (out_view o) = starter v ∧
  (∀ io' : Call -> bool,
     (∀ c, is_deletion_call c = false -> io' c = io c) ->
     out_view (run io' (vote_button set_iter i) v) = out_view o ∧
     out_result (run io' (vote_button set_iter i) v) = out_result o).
Proof.
  cbn zeta. intros Hst.
  split_and!; [| | | | |intros io' Hagree;
     destruct (vote_independent_of_deletion set_iter io' io i v Hagree)
       as (Hv & Hr & _); by split].
  all: revert Hst; rewrite session_started_vote;
    intros [Hc Hedit]%andb_prop;
    apply bool_decide_eq_true_1 in Hc as [Hnew Hcross];
    rewrite run_vote_add_start by done; rewrite Hedit; cbn;
    rewrite ?len_add by done.
  - reflexivity.
  - reflexivity.
  - by destruct (_ && _).
  - by destruct (_ && _).
  - by destruct (_ && _).
Qed.

(** Threshold 2, voters {1}, click by user 2; the delete and the defer both
    raise (as a defer does once the label edit has answered the
    interaction): the failure is logged, and the announcement and the reply
    follow. *)
Lemma delete_is_best_effort_witness :
  let v := view_of {[1]} 2 in
  let o := run io_no_delete (vote_button elements (click 2)) v in
  (∃ ann reply,
     out_trace o =
       [EvCall (ResponseEditMessage "Vote (2)") true;
        EvCall MessageDelete false; EvCall ResponseDefer false;
        EvLog "Failed to delete original vote message";
        EvCall (ChannelSend mention_content ann QuickJoinView) true;
        EvCall (MessageReply reply) true]) ∧
  out_result o = Some tt ∧
  voters (out_view o) = ∅ ∧
  out_view (run io_ok (vote_button elements (click 2)) v) = out_view o.
Proof.
  cbn zeta.
  assert (session_started
            (run io_no_delete (vote_button elements (click 2))
               (view_of {[1]} 2)) = true) as Hst
    by (vm_compute; reflexivity).
  destruct (delete_is_best_effort elements io_no_delete (click 2)
              (view_of {[1]} 2) Hst)
    as (Htr & Hres & Hv & _ & _ & Hindep).
  split_and!.
  - rewrite Htr. do 2 eexists. vm_compute. reflexivity.
  - exact Hres.
  - exact Hv.
  - apply (Hindep io_ok). intros c Hc. unfold io_no_delete, io_ok.
    by rewrite Hc.
Defined.

(** C9, refuted as stated: with threshold 2 and voter set {1}, the click by
    user 2 enters the session-start flow; when the voters reply cannot be
    delivered the exception leaves the handler, and the voter set the
    handler leaves is {1, 2} where a delivered reply leaves the empty
    set. *)
Lemma delivery_failure_counterexample :
  let v := view_of {[1]} 2 in
  let o := run io_no_reply (vote_button elements (click 2)) v in
  let o' := run io_ok (vote_button elements (click 2)) v in
  session_started o = true ∧
  out_result o = None ∧
  voters (out_view o) = {[1; 2]} ∧
  out_result o' = Some tt ∧
  voters (out_view o') = ∅.
Proof. vm_compute. split_and!; reflexivity. Qed.

(** ** C4: suspension points *)

(** [run] is the event loop with one handler at a time: running a handler
    is running it up to its next suspension, completing the awaited call,
    and running on. *)
Lemma run_advance (io : Call -> bool) (p : prog unit) (v : View) :
  run io p v =
    match advance p v with
    | (v', tr, Finished) => mkOutcome v' tr (Some tt)
    | (v', tr, Failed) => mkOutcome v' tr None
    | (v', tr, Suspended c kok kexn) =>
        prepend tr
          (emit (EvCall c (io c)) (run io (if io c then kok else kexn) v'))
    end.
Proof.
  revert v. induction p as [[]| |k IH|v' k IH|c kok _ kexn _|msg k IH];
    intros v; cbn; try done.
  rewrite IH. by destruct (advance k v) as [[v' tr] [c kok kexn| |]].
Qed.

(** C4, the code at the failing input: threshold 2, user 1 has voted, and
    users 2 and 3 click while the handler of user 2 is suspended.  The
    handler of user 2 reaches its first suspension (the label edit) with the
    vote added and the count captured, but it compares the count with the
    threshold only when resumed, and it clears the voter set only after the
    deletion, the announcement and the reply have been awaited.  The
    handler of user 3, run in between, finds the votes of users 1 and 2
    still in place: both handlers enter the session-start flow and two
    announcements are sent, where the same clicks handled one after the
    other send one. *)
Theorem clicks_in_flight_start_twice :
  let v := mkView ∅ 2 (Some 99) "Vote (0)" in
  let '(v1, _, t1) := advance (vote_button elements (click 2)) (view_of {[1]} 2) in
  let o := run io_ok (vote_button elements (click 2)) (view_of {[1]} 2) in
  let l := loop_run elements v two_clicks_in_flight in
  voters v1 = {[1; 2]} ∧
  pending_call t1 = Some (ResponseEditMessage "Vote (2)") ∧
  voters (out_view o) = ∅ ∧
  loop_tasks l = [Finished; Finished; Finished] ∧
  announcements (loop_trace l) = 2%nat ∧
  sum_list (announcements ∘ out_trace <$>
              run_clicks elements io_ok v (click <$> [1; 2; 3])) = 1%nat.
Proof. vm_compute. split_and!; reflexivity. Qed.

(** ** Further properties *)

(** The view-voters handler on an empty voter set, in particular on the
    view a session start has left (calls delivered): it answers
    "No one has voted yet!" and leaves the view as it is. *)
Theorem view_voters_after_start (set_iter : gset Z -> list Z)
    (io : Call -> bool) (i i' : Interaction) (v : View) :
  let o := run io_ok (vote_button set_iter i) v in
  let q := run io (view_voters_button set_iter i') (out_view o) in
  session_started o = true ->
  voters (out_view o) = ∅ ∧
  out_view q = out_view o ∧
  out_trace q =
    [EvCall (ResponseSendMessage "No one has voted yet!" true)
            (io (ResponseSendMessage "No one has voted yet!" true))].
Proof.
  cbn zeta. intros Hst.
  rewrite (view_after_start set_iter io_ok io_ok_delivers i v Hst).
  split_and!; [done|apply run_view_voters|].
  unfold view_voters_button. cbn. rewrite decide_True by done. cbn.
  by destruct (io _).
Qed.

Lemma view_voters_after_start_witness :
  let o := run io_ok (vote_button elements (click 2)) (view_of {[1]} 2) in
  out_trace (run io_ok (view_voters_button elements (click 5)) (out_view o)) =
    [EvCall (ResponseSendMessage "No one has voted yet!" true) true].
Proof.
  cbn zeta.
  refine (proj2 (proj2 (view_voters_after_start elements io_ok (click 2)
                          (click 5) (view_of {[1]} 2) _))).
  vm_compute. reflexivity.
Defined.

(** Scenario B: threshold 2; user 1 votes, withdraws and votes again, then
    user 2 votes.  Only the fourth click starts the session; it mentions
    users 1 and 2 and leaves the voter set empty. *)
Theorem scenario_B :
  match SessionVoteView_init 2 (Some 99) with
  | Ok v =>
      let outs := run_clicks elements io_ok v (click <$> [1; 1; 1; 2]) in
      session_started <$> outs = [false; false; false; true] ∧
      len ∘ voters ∘ out_view <$> outs = [1; 0; 1; 0] ∧
      ∃ o, last outs = Some o ∧
           mentions_voters o (elements ({[1; 2]} : gset Z))
  | Raised => False
  end.
Proof.
  cbn [SessionVoteView_init]. cbn zeta. split_and!.
  - vm_compute. reflexivity.
  - vm_compute. reflexivity.
  - eexists. split; [reflexivity|].
    unfold mentions_voters. vm_compute.
    do 3 apply list_elem_of_further. apply list_elem_of_here.
Qed.

(** ** The vote button: label, bound on the count, failed starts *)

(** After every click on the vote button, whatever the view before it and
    whatever the outcomes of the awaited calls, the label of the button is
    "Vote (<n>)" with n the number of voters the click leaves. *)
Theorem label_shows_count (set_iter : gset Z -> list Z) (io : Call -> bool)
    (i : Interaction) (v : View) :
  let o := run io (vote_button set_iter i) v in
  vote_label (out_view o) =
    "Vote (" +:+ pretty (len (voters (out_view o))) +:+ ")".
Proof.
  cbn zeta. destruct (decide (user_id i ∈ voters v)) as [Hin|Hnew].
  - by rewrite run_vote_remove by done.
  - destruct (decide (vote_threshold v - len (voters v ∪ {[user_id i]}) ≤ 0))
      as [Hcross|Hbelow].
    + rewrite run_vote_add_start by done. cbn.
      by destruct (_ && _).
    + by rewrite run_vote_add_below by done.
Qed.

Section Bound.
Variable set_iter : gset Z -> list Z.
Variable io : Call -> bool.
Hypothesis io_delivers : delivers io.

Lemma click_keeps_below (T : Z) (i : Interaction) (v : View) :
  below_threshold T v ->
  below_threshold T (out_view (run io (vote_button set_iter i) v)).
Proof.
  intros [Hlt HT]. unfold below_threshold.
  destruct (fields_after_vote set_iter io i v) as [-> _].
  split; [|done].
  destruct (session_started (run io (vote_button set_iter i) v)) eqn:Hst.
  - rewrite (view_after_start set_iter io io_delivers i v Hst). cbn.
    rewrite len_empty. unfold len in Hlt. lia.
  - pose proof Hst as Hst'.
    rewrite (started_delivered set_iter io io_delivers) in Hst'.
    apply bool_decide_eq_false_1 in Hst'.
    destruct (view_without_start set_iter io i v Hst) as (-> & _ & _).
    rewrite len_spec_toggle in *. case_decide; [lia|].
    destruct (decide (vote_threshold v ≤ len (voters v) + 1)); [tauto|lia].
Qed.

Lemma run_clicks_lookup (T : Z) (clicks : list Interaction) :
  ∀ (v : View) (k : nat) (o : Outcome unit),
    below_threshold T v ->
    run_clicks set_iter io v clicks !! k = Some o ->
    ∃ v' i, below_threshold T v' ∧ starter v' = starter v ∧
            clicks !! k = Some i ∧ o = run io (vote_button set_iter i) v'.
Proof.
  induction clicks as [|i rest IH]; intros v k o Hv Hk; [done|].
  destruct k as [|k].
  - exists v, i. split_and!; try done.
    symmetry. exact (Some_inj _ _ Hk).
  - destruct (IH (out_view (run io (vote_button set_iter i) v)) k o)
      as (v' & i' & Hv' & Hs & Hi & Ho).
    + by apply click_keeps_below.
    + exact Hk.
    + exists v', i'. split_and!; try done.
      rewrite Hs. apply fields_after_vote.
Qed.

Lemma start_trace_delivered (i : Interaction) (v : View) :
  session_started (run io (vote_button set_iter i) v) = true ->
  (user_id i ∉ voters v) ∧
  vote_threshold v ≤ len (voters v) + 1 ∧
  out_trace (run io (vote_button set_iter i) v) =
    EvCall (ResponseEditMessage (vote_label_of (len (voters v) + 1))) true ::
    delete_trace io i ++
    [EvCall (announcement v i) true;
     EvCall (voters_reply (set_iter (voters v ∪ {[user_id i]}))) true].
Proof.
  rewrite session_started_vote.
  intros [Hc _]%andb_prop. apply bool_decide_eq_true_1 in Hc as [Hnew Hcross].
  split; [done|]. rewrite len_add in Hcross by done. split; [lia|].
  rewrite run_vote_add_start by (done || (rewrite len_add by done; lia)).
  destruct (delivered_vote_calls io io_delivers i (added_view v (user_id i))
              (vote_label (added_view v (user_id i)))
              (set_iter (voters (added_view v (user_id i)))))
    as (-> & -> & -> & _).
  cbn. by rewrite len_add by done.
Qed.

End Bound.

(** On a view constructed with a threshold T >= 1, clicks handled one after
    the other with their calls delivered (the deletion of the prompt
    apart): after every click the voter count is at least 0 and below T,
    and a click that starts the session mentions exactly T voters, the
    announcement naming the starter the view was constructed with. *)
Theorem start_mentions_exactly_threshold (set_iter : gset Z -> list Z)
    (io : Call -> bool) (T : Z) (st : Z) (v0 : View)
    (clicks : list Interaction) (k : nat) (o : Outcome unit) :
  (∀ s, set_iter s ≡ₚ elements s) ->
  delivers io ->
  1 ≤ T ->
  SessionVoteView_init T (Some st) = Ok v0 ->
  run_clicks set_iter io v0 clicks !! k = Some o ->
  0 ≤ len (voters (out_view o)) < T ∧
  (session_started o = true ->
   ∃ i final,
     clicks !! k = Some i ∧
     EvCall (announcement v0 i) true ∈ out_trace o ∧
     mentions_voters o final ∧ NoDup final ∧ user_id i ∈ final ∧
     Z.of_nat (length final) = T).
Proof.
  intros Hperm Hio HT Hinit Hk. injection Hinit as <-.
  destruct (run_clicks_lookup set_iter io Hio T clicks
              (mkView ∅ T (Some st) "Vote (0)") k o)
    as (v' & i & [Hlt HT'] & Hs & Hi & ->); [|exact Hk|].
  { split; [|done]. change (len ∅ < T). rewrite len_empty. lia. }
  split.
  - destruct (click_keeps_below set_iter io Hio T i v') as [Hlt' _]; [done|].
    split; [unfold len; lia|exact Hlt'].
  - intros Hst.
    destruct (start_trace_delivered set_iter io Hio i v' Hst)
      as (Hnew & Hge & Htr).
    exists i, (set_iter (voters v' ∪ {[user_id i]})).
    assert (announcement v' i = announcement (mkView ∅ T (Some st) "Vote (0)") i)
      as Hann by (unfold announcement; by rewrite Hs).
    split_and!.
    + exact Hi.
    + rewrite Htr, Hann. apply elem_of_cons. right.
      apply elem_of_app. right. set_solver.
    + unfold mentions_voters. rewrite Htr. apply elem_of_cons. right.
      apply elem_of_app. right. set_solver.
    + rewrite Hperm. apply NoDup_elements.
    + rewrite Hperm, elem_of_elements. set_solver.
    + rewrite Hperm.
      change (len (voters v' ∪ {[user_id i]}) = T).
      rewrite len_add by done. lia.
Qed.

Lemma start_mentions_exactly_threshold_witness :
  ∃ o, run_clicks elements io_no_delete (mkView ∅ 3 (Some 99) "Vote (0)")
         (click <$> [5; 6; 5; 5; 7]) !! 4%nat = Some o ∧
       len (voters (out_view o)) < 3 ∧ session_started o = true.
Proof.
  eexists. split; [reflexivity|].
  assert (∀ s : gset Z, elements s ≡ₚ elements s) as Hperm
    by (intros s; reflexivity).
  assert (delivers io_no_delete) as Hio
    by (intros c Hc; unfold io_no_delete; rewrite Hc; reflexivity).
  assert (1 ≤ 3) as HT by lia.
  split.
  - exact (proj2 (proj1 (start_mentions_exactly_threshold elements
                           io_no_delete 3 99 _ (click <$> [5; 6; 5; 5; 7]) 4 _
                           Hperm Hio HT eq_refl eq_refl))).
  - vm_compute. reflexivity.
Defined.

(** When the label edit of a threshold-reaching click is delivered but the
    announcement or the voters reply raises, the exception leaves the
    handler before the voter set is cleared: every vote stays, and the next
    click by any new user (its label edit delivered) enters the
    session-start flow again. *)
Theorem failed_start_keeps_votes (set_iter : gset Z -> list Z)
    (io io' : Call -> bool) (i i' : Interaction) (v : View) :
  (user_id i ∉ voters v) ->
  vote_threshold v ≤ len (voters v) + 1 ->
  (∀ l, io (ResponseEditMessage l) = true) ->
  (∀ c e w, io (ChannelSend c e w) = false) ∨
  (∀ c, io (MessageReply c) = false) ->
  (user_id i' ∉ voters v ∪ {[user_id i]}) ->
  (∀ l, io' (ResponseEditMessage l) = true) ->
  let o := run io (vote_button set_iter i) v in
  let o' := run io' (vote_button set_iter i') (out_view o) in
  out_result o = None ∧
  session_started o = true ∧
  voters (out_view o) = voters v ∪ {[user_id i]} ∧
  session_started o' = true.
Proof.
  intros Hnew Hge Hedit Hfail Hnew' Hedit'. cbn zeta.
  assert (vote_threshold v - len (voters v ∪ {[user_id i]}) ≤ 0) as Hcross
    by (rewrite len_add by done; lia).
  assert (out_view (run io (vote_button set_iter i) v) =
          added_view v (user_id i) ∧
          out_result (run io (vote_button set_iter i) v) = None) as [Hv Hr].
  { rewrite run_vote_add_start by done. rewrite Hedit. cbn.
    unfold announcement, voters_reply.
    destruct Hfail as [Hf|Hf]; rewrite Hf; cbn;
      [done|by rewrite andb_false_r]. }
  rewrite Hv. split_and!.
  - exact Hr.
  - rewrite session_started_vote, Hedit, andb_true_r.
    apply bool_decide_eq_true_2. by split.
  - done.
  - rewrite session_started_vote, Hedit', andb_true_r.
    apply bool_decide_eq_true_2. split; [done|]. cbn.
    rewrite len_add by done. rewrite len_add in Hcross by done.
    pose proof (len_add (voters v) (user_id i) Hnew). lia.
Qed.

Lemma failed_start_keeps_votes_witness :
  let o := run io_no_reply (vote_button elements (click 2)) (view_of {[1]} 2) in
  let o' := run io_ok (vote_button elements (click 3)) (out_view o) in
  out_result o = None ∧ voters (out_view o) = {[1]} ∪ {[2]} ∧
  session_started o' = true.
Proof.
  cbn zeta.
  destruct (failed_start_keeps_votes elements io_no_reply io_ok (click 2)
              (click 3) (view_of {[1]} 2))
    as (Hr & _ & Hv & Hs').
  - vm_compute. intros H. discriminate H.
  - vm_compute. discriminate.
  - reflexivity.
  - right. reflexivity.
  - vm_compute. intros H. discriminate H.
  - reflexivity.
  - split_and!; [exact Hr|exact Hv|exact Hs'].
Defined.

(** ** Running commands *)

Lemma run_cmd_bind {A B : Type} (io : CtxCall -> option Exn) (p : cmd A)
    (f : A -> cmd B) (g : Globals) :
  run_cmd io (p ≫= f) g =
    match co_result (run_cmd io p g) with
    | inl a =>
        cprepend (co_trace (run_cmd io p g))
          (run_cmd io (f a) (co_globals (run_cmd io p g)))
    | inr e =>
        mkCmdOutcome (co_globals (run_cmd io p g))
          (co_trace (run_cmd io p g)) (inr e)
    end.
Proof.
  revert g. induction p as [a|e|k IH|g' k IH|c kok IHok kexn IHexn|l m k IH];
    intros g; cbn.
  - by destruct (run_cmd io (f a) g).
  - done.
  - apply IH.
  - apply IH.
  - change (cmd_bind f ?q) with (q ≫= f).
    destruct (io c) as [e|]; [rewrite IHexn|rewrite IHok];
      by destruct (co_result (run_cmd io _ _)).
  - change (cmd_bind f ?q) with (q ≫= f). rewrite IH.
    by destruct (co_result (run_cmd io k g)).
Qed.

Lemma globals_eta (g : Globals) :
  mkGlobals (WELCOME_CHANNEL_ID g) (state g) (disk g) = g.
Proof. by destruct g. Qed.

Lemma run_delete_invocation (io : CtxCall -> option Exn) (g : Globals) :
  only_exceptions io ->
  run_cmd io delete_invocation g =
    mkCmdOutcome g [CmdCall CtxMessageDelete (io CtxMessageDelete)] (inl tt).
Proof.
  intros Hio. unfold delete_invocation, ctry. cbn.
  destruct (io CtxMessageDelete) as [e|] eqn:He; cbn.
  - rewrite (Hio _ _ He). cbn. by rewrite globals_eta.
  - by rewrite globals_eta.
Qed.

(** A command that deletes its invocation and goes on with [k]. *)
Lemma run_after_delete (io : CtxCall -> option Exn) (k : cmd unit)
    (g : Globals) :
  only_exceptions io ->
  run_cmd io (delete_invocation;; k) g =
    cemit (CmdCall CtxMessageDelete (io CtxMessageDelete)) (run_cmd io k g).
Proof.
  intros Hio. rewrite run_cmd_bind, run_delete_invocation by done. cbn.
  by destruct (run_cmd io k g).
Qed.

Lemma run_ccall_send (io : CtxCall -> option Exn) (m : Outbound) (g : Globals) :
  run_cmd io (ccall (CtxSend m)) g =
    mkCmdOutcome g [CmdCall (CtxSend m) (io (CtxSend m))]
      (match io (CtxSend m) with None => inl tt | Some e => inr e end).
Proof. cbn. rewrite globals_eta. by destruct (io _). Qed.

(** ** The session commands *)

(** The four session commands answer role holders only.  For an author
    without the role the command does nothing at all: no reply, and the
    invoking message is not deleted.  For an author with the role it tries
    to delete the invocation and then sends exactly one message, whether or
    not the deletion succeeded; the command raises exactly when that send
    does.  The globals are never touched. *)
Theorem session_commands_gate (io : CtxCall -> option Exn) (ctx : Context)
    (g : Globals) (command : Context -> cmd unit) :
  only_exceptions io ->
  command ∈ [session; sessionboost; full; ssd] ->
  let o := run_cmd io (command ctx) g in
  co_globals o = g ∧
  if has_required_role ctx then
    ∃ m, co_trace o =
           [CmdCall CtxMessageDelete (io CtxMessageDelete);
            CmdCall (CtxSend m) (io (CtxSend m))] ∧
         co_result o =
           match io (CtxSend m) with None => inl tt | Some e => inr e end
  else co_trace o = [] ∧ co_result o = inl tt.
Proof.
  intros Hio Hin. cbn zeta.
  repeat (apply elem_of_cons in Hin as [->|Hin]);
    [..|by apply elem_of_nil in Hin];
    unfold session, sessionboost, full, ssd;
    destruct (has_required_role ctx); cbn [negb]; try done;
    cbn [SessionVoteView_init];
    rewrite run_after_delete, run_ccall_send by done; cbn;
    (split; [done|eexists; split; reflexivity]).
Qed.

Lemma session_commands_gate_witness :
  co_trace (run_cmd cio_ok (ssd (ctx_of 7 [5; 6])) globals0) = [] ∧
  length (co_trace (run_cmd cio_ok
                      (session (ctx_of 7 [5; required_role_id])) globals0))
  = 2%nat.
Proof.
  assert (only_exceptions cio_ok) as Hio by (intros c e H; discriminate H).
  split.
  - refine (proj1 (proj2 (session_commands_gate cio_ok (ctx_of 7 [5; 6])
                            globals0 ssd Hio _))).
    vm_compute. do 3 apply list_elem_of_further. apply list_elem_of_here.
  - destruct (session_commands_gate cio_ok (ctx_of 7 [5; required_role_id])
                globals0 session Hio) as (_ & m & -> & _).
    + apply list_elem_of_here.
    + reflexivity.
Defined.

Lemma run_clicks_length (set_iter : gset Z -> list Z) (io : Call -> bool)
    (v : View) (clicks : list Interaction) :
  length (run_clicks set_iter io v clicks) = length clicks.
Proof.
  revert v. induction clicks as [|i rest IH]; intros v; [done|].
  cbn [run_clicks length]. by rewrite IH.
Qed.

(** Votes of distinct users who are not yet members add up. *)
Lemma count_after_distinct (clicks : list Interaction) :
  ∀ s : gset Z,
    NoDup (user_id <$> clicks) ->
    (∀ i, i ∈ clicks -> user_id i ∉ s) ->
    count_after s clicks = len s + Z.of_nat (length clicks).
Proof.
  unfold count_after.
  induction clicks as [|i rest IH]; intros s Hnd Hnew; cbn.
  - lia.
  - apply NoDup_cons in Hnd as [Hi Hnd].
    assert (user_id i ∉ s) as Hs by (apply Hnew; left).
    unfold spec_toggle at 2. rewrite decide_False by done.
    rewrite IH; [rewrite len_add by done; lia|done|].
    intros i' Hi'. apply not_elem_of_union. split.
    + apply Hnew. by right.
    + apply not_elem_of_singleton. intros Heq. apply Hi.
      rewrite <- Heq. by apply list_elem_of_fmap_2.
Qed.

Lemma count_after_take_distinct (clicks : list Interaction) (n : nat) :
  NoDup (user_id <$> clicks) ->
  (n ≤ length clicks)%nat ->
  count_after ∅ (take n clicks) = Z.of_nat n.
Proof.
  intros Hnd Hn. rewrite count_after_distinct.
  - rewrite len_empty, length_take. lia.
  - rewrite fmap_take. eapply sublist_NoDup; [exact Hnd|apply sublist_take].
  - set_solver.
Qed.

(** The prompt the [session] command sends, and the votes it takes: a role
    holder's [!session] sends a message that carries the vote view
    constructed with threshold 8 and the author as starter.  When at most
    eight distinct users click on that view, one after the other with their
    calls delivered, the eighth click and no other starts the session, and
    its announcement names the author of the command. *)
Theorem session_prompt_needs_eight_votes (set_iter : gset Z -> list Z)
    (cio : CtxCall -> option Exn) (io : Call -> bool) (ctx : Context)
    (g : Globals) (view : View) (clicks : list Interaction) (k : nat)
    (o : Outcome unit) :
  only_exceptions cio ->
  has_required_role ctx = true ->
  delivers io ->
  NoDup (user_id <$> clicks) ->
  (length clicks ≤ 8)%nat ->
  SessionVoteView_init 8 (Some (ctx_author ctx)) = Ok view ->
  (∃ m, CmdCall (CtxSend m) (cio (CtxSend m)) ∈
          co_trace (run_cmd cio (session ctx) g) ∧
        ob_view m = vote_view view) ∧
  (run_clicks set_iter io view clicks !! k = Some o ->
   session_started o = bool_decide (k = 7%nat) ∧
   (session_started o = true ->
    ∃ i, clicks !! k = Some i ∧
         EvCall (announcement view i) true ∈ out_trace o ∧
         announcement view i =
           ChannelSend mention_content
             (session_start_embeds (mention (ctx_author ctx)) (now i))
             QuickJoinView)).
Proof.
  intros Hcio Hrole Hio Hnd Hlen Hinit. injection Hinit as <-.
  set (view := mkView ∅ 8 (Some (ctx_author ctx)) "Vote (0)").
  split.
  - eexists. split.
    + unfold session. rewrite Hrole. cbn [negb SessionVoteView_init].
      rewrite run_after_delete, run_ccall_send by done. cbn.
      apply list_elem_of_further, list_elem_of_here.
    + reflexivity.
  - intros Hk.
    assert (k < length clicks)%nat as Hklt.
    { rewrite <- (run_clicks_length set_iter io view clicks).
      by eapply lookup_lt_Some. }
    destruct (clicks_until_start set_iter io Hio clicks view k o)
      as [Hst _]; [| exact Hk | |].
    { change (len ∅ < 8). rewrite len_empty. lia. }
    { intros j Hj. rewrite count_after_take_distinct by (done || lia).
      change (Z.of_nat (S j) < 8). lia. }
    rewrite count_after_take_distinct in Hst by (done || lia).
    split.
    + rewrite Hst. apply bool_decide_ext.
      change (8 ≤ Z.of_nat (S k) ↔ k = 7%nat). lia.
    + intros Hs.
      destruct (run_clicks_lookup set_iter io Hio 8 clicks view k o)
        as (v' & i & _ & Hstarter & Hi & ->); [|exact Hk|].
      { split; [|done]. change (len ∅ < 8). rewrite len_empty. lia. }
      destruct (start_trace_delivered set_iter io Hio i v' Hs)
        as (_ & _ & Htr).
      exists i. split_and!; [exact Hi| |reflexivity]. rewrite Htr.
      assert (announcement v' i = announcement view i) as ->
        by (unfold announcement; by rewrite Hstarter).
      apply elem_of_cons. right. apply elem_of_app. right. set_solver.
Qed.

Lemma session_prompt_needs_eight_votes_witness :
  ∃ o, run_clicks elements io_ok (mkView ∅ 8 (Some 7) "Vote (0)")
         (click <$> [11; 12; 13; 14; 15; 16; 17; 18]) !! 7%nat = Some o ∧
       session_started o = true.
Proof.
  assert (only_exceptions cio_ok) as Hcio by (intros c e H; discriminate H).
  assert (delivers io_ok) as Hio by (intros c _; reflexivity).
  assert (NoDup (user_id <$> (click <$> [11; 12; 13; 14; 15; 16; 17; 18])))
    as Hnd by (vm_compute; repeat constructor; set_solver).
  assert (Nat.le (length (click <$> [11; 12; 13; 14; 15; 16; 17; 18])) 8)
    as Hlen by (vm_compute; lia).
  eexists. split; [reflexivity|].
  exact (proj1 (proj2 (session_prompt_needs_eight_votes elements cio_ok io_ok
                         (ctx_of 7 [required_role_id]) globals0 _
                         (click <$> [11; 12; 13; 14; 15; 16; 17; 18]) 7 _
                         Hcio eq_refl Hio Hnd Hlen eq_refl) eq_refl)).
Defined.

(** ** The infraction command *)

Lemma neg_index_last (pre : list string) (w : string) :
  neg_index (pre ++ [w]) 1 = Some w.
Proof.
  unfold neg_index. rewrite length_app. cbn.
  rewrite decide_True by lia.
  replace (length pre + 1 - 1)%nat with (length pre + 0)%nat by lia.
  by rewrite lookup_app_r, Nat.add_0_r, Nat.sub_diag by lia.
Qed.

Lemma neg_index_before_last (pre : list string) (a b : string) :
  neg_index (pre ++ [a; b]) 2 = Some a.
Proof.
  unfold neg_index. rewrite length_app. cbn.
  rewrite decide_True by lia.
  replace (length pre + 2 - 2)%nat with (length pre) by lia.
  by rewrite lookup_app_r, Nat.sub_diag by lia.
Qed.

Lemma drop_last_app (pre suf : list string) :
  drop_last (length suf) (pre ++ suf) = pre.
Proof.
  unfold drop_last. rewrite length_app.
  replace (length pre + length suf - length suf)%nat with (length pre) by lia.
  by rewrite take_app_length.
Qed.

Lemma split_last_two (parts : list string) :
  (2 ≤ length parts)%nat -> ∃ pre a b, parts = pre ++ [a; b].
Proof.
  intros Hlen.
  destruct (rev parts) as [|b [|a rpre]] eqn:Hrev.
  - apply (f_equal length) in Hrev. rewrite length_rev in Hrev. cbn in Hrev. lia.
  - apply (f_equal length) in Hrev. rewrite length_rev in Hrev. cbn in Hrev. lia.
  - exists (rev rpre), a, b.
    rewrite <- (rev_involutive parts), Hrev. cbn.
    by rewrite <- !app_assoc.
Qed.

Lemma join_nonempty (sep p : string) (rest : list string) :
  p ≠ "" -> join sep (p :: rest) ≠ "".
Proof.
  intros Hp. destruct rest as [|q rest]; [done|].
  cbn [join]. destruct p; [done|]. discriminate.
Qed.

Lemma valid_type_configured (t : string) :
  t ∈ valid_types -> is_Some (type_config !! t).
Proof.
  unfold valid_types. intros Hin.
  repeat (apply elem_of_cons in Hin as [->|Hin]);
    [..|by apply elem_of_nil in Hin]; vm_compute; eauto.
Qed.

Section InfractProperties.
Variable lower : string -> string.

(** The parser on a list that ends in the two words [a], [b]. *)
Lemma parse_last_two (pre : list string) (a b : string) :
  parse_reason_and_type lower (pre ++ [a; b]) =
    if decide (lower b ∉ valid_types) then
      if decide (pre ≠ []) then
        if decide (lower a ∈ valid_types)
        then parsed (lower a) (Some b) (join " " pre)
        else invalid_type b
      else invalid_type b
    else if decide (lower b = "suspension" ∧ pre ≠ [])
    then parsed (lower b) (Some b) (join " " pre)
    else if decide (lower b = "suspension") then needs_duration
    else parsed (lower b) None (join " " (pre ++ [a])).
Proof.
  unfold parse_reason_and_type.
  replace (pre ++ [a; b]) with ((pre ++ [a]) ++ [b]) at 1
    by (by rewrite <- app_assoc).
  rewrite neg_index_last, neg_index_before_last.
  replace (drop_last 2 (pre ++ [a; b])) with pre
    by (symmetry; apply (drop_last_app pre [a; b])).
  replace (drop_last 1 (pre ++ [a; b])) with (pre ++ [a]).
  2:{ replace (pre ++ [a; b]) with ((pre ++ [a]) ++ [b])
        by (by rewrite <- app_assoc).
      symmetry. apply (drop_last_app (pre ++ [a]) [b]). }
  assert ((3 ≤ length (pre ++ [a; b]))%nat ↔ pre ≠ []) as Hlen.
  { rewrite length_app. cbn. destruct pre; cbn; split; (done || lia). }
  repeat case_decide; try done; tauto.
Qed.

(** Whenever lines 352-375 settle on an infraction, its type is one of the
    five valid types, so [type_config] has an entry for it and the
    dark-grey default of [type_config.get] is never used; a suspension
    always carries a duration; and a duration, when there is one, is the
    last word of the input. *)
Theorem infraction_type_is_configured (parts : list string) (t : string)
    (d : option string) (r : string) :
  parse_reason_and_type lower parts = parsed t d r ->
  t ∈ valid_types ∧
  is_Some (type_config !! t) ∧
  (t = "suspension" -> is_Some d) ∧
  (is_Some d -> d = last parts).
Proof.
  intros Hp.
  assert (t ∈ valid_types ∧ (t = "suspension" -> is_Some d) ∧
          (is_Some d -> d = last parts)) as (Ht & Hs & Hd).
  { destruct (decide (2 ≤ length parts)%nat) as [Hlen|Hlen].
    - destruct (split_last_two parts Hlen) as (pre & a & b & ->).
      rewrite parse_last_two in Hp.
      assert (last (pre ++ [a; b]) = Some b) as Hl.
      { replace (pre ++ [a; b]) with ((pre ++ [a]) ++ [b])
          by (by rewrite <- app_assoc).
        apply last_snoc. }
      rewrite Hl.
      repeat case_decide; simplify_eq;
        (split_and!;
         [ first [assumption | by apply dec_stable]
         | first [by eauto | by intros ?]
         | first [done | by intros [? ?]] ]).
    - unfold parse_reason_and_type, neg_index in Hp.
      destruct parts as [|w [|w' rest]]; cbn in Hp; [done| |cbn in Hlen; lia].
      repeat case_decide; simplify_eq; try lia.
      split_and!;
        [first [assumption | by apply dec_stable]|by intros ?|by intros [? ?]]. }
  split_and!; try done. by apply valid_type_configured.
Qed.

(** When the last word is "suspension" (in any letter case) and at least
    three words were given, the duration shown is that very word and the
    word before it is dropped from the reason: for
    [... REASON-WORD Suspension] the command posts a suspension of duration
    "Suspension" whose reason lacks its last word. *)
Theorem trailing_suspension_word (pre : list string) (w t : string) :
  pre ≠ [] ->
  lower t = "suspension" ->
  parse_reason_and_type lower (pre ++ [w; t]) =
    parsed "suspension" (Some t) (join " " pre).
Proof.
  intros Hpre Ht. rewrite parse_last_two, Ht.
  assert ("suspension" ∈ valid_types) as Hv
    by (unfold valid_types; set_solver).
  rewrite (decide_False (P := "suspension" ∉ valid_types)) by tauto.
  by rewrite decide_True by done.
Qed.

(** When the last word is no valid type but the word before it is, the
    last word is taken as the duration, whatever the type: with at least
    one reason word before them the infraction is posted with that
    duration, otherwise the input is rejected as an invalid type that
    quotes the last word. *)
Theorem trailing_word_is_duration (pre : list string) (t d : string) :
  lower d ∉ valid_types ->
  lower t ∈ valid_types ->
  parse_reason_and_type lower (pre ++ [t; d]) =
    match pre with
    | [] => invalid_type d
    | _ => parsed (lower t) (Some d) (join " " pre)
    end.
Proof.
  intros Hd Ht. rewrite parse_last_two.
  rewrite decide_True by done.
  destruct pre; [by rewrite decide_False by tauto|].
  by rewrite !decide_True by done.
Qed.

Variable capitalize : string -> string.

(** When no word is empty (as with the words [str.split] yields) and at
    least two words were given, the reason of a posted infraction is never
    empty, so the "Reason:" field of the embed shows it and never the
    fallback "No reason provided". *)
Theorem reason_is_never_empty (ctx : Context) (appealable : string)
    (parts : list string) (t : string) (d : option string) (r : string) :
  Forall (λ w, w ≠ "") parts ->
  (2 ≤ length parts)%nat ->
  parse_reason_and_type lower parts = parsed t d r ->
  r ≠ "" ∧
  re_fields (infraction_embed capitalize ctx t appealable d r) !! 1%nat =
    Some ("Reason:", r, false).
Proof.
  intros Hne Hlen Hp.
  assert (r ≠ "") as Hr.
  { destruct (split_last_two parts Hlen) as (pre & a & b & ->).
    rewrite parse_last_two in Hp.
    apply Forall_app in Hne as [Hpre Hab].
    apply Forall_cons in Hab as [Ha _].
    assert (pre ≠ [] -> join " " pre ≠ "") as Hj.
    { destruct pre as [|p rest]; [done|]. intros _.
      apply join_nonempty. by apply Forall_cons in Hpre as [? _]. }
    assert (join " " (pre ++ [a]) ≠ "") as Hja.
    { destruct pre as [|p rest]; [done|]. cbn [app].
      apply join_nonempty. by apply Forall_cons in Hpre as [? _]. }
    repeat case_decide; simplify_eq; try done; try (by apply Hj); tauto. }
  split; [done|]. unfold infraction_embed. cbn.
  by destruct r.
Qed.

Variable split : string -> list string.

(** An invocation of [infract] tries to delete the invoking message and
    then sends exactly one message, whatever the arguments; it raises
    exactly when that send does (the indexing of the words never goes out
    of range) and leaves the globals alone.  The message sent is the
    infraction post, addressed to the user, only when a user was given, the
    appealable flag reads "yes" or "no" in lower case and the words yield
    an infraction; every other reply carries a [delete_after]. *)
Theorem infract_replies_once (io : CtxCall -> option Exn) (ctx : Context)
    (user : option Z) (appealable reason_and_type : option string)
    (g : Globals) :
  only_exceptions io ->
  let o := run_cmd io (infract lower capitalize split ctx user appealable
                         reason_and_type) g in
  ∃ m,
    co_trace o =
      [CmdCall CtxMessageDelete (io CtxMessageDelete);
       CmdCall (CtxSend m) (io (CtxSend m))] ∧
    co_result o =
      match io (CtxSend m) with None => inl tt | Some e => inr e end ∧
    co_globals o = g ∧
    (ob_delete_after m = None ->
     ∃ u a rt t d r,
       user = Some u ∧ appealable = Some a ∧ reason_and_type = Some rt ∧
       lower a ∈ ["yes"; "no"] ∧
       parse_reason_and_type lower (split rt) = parsed t d r ∧
       m = mkOutbound (Some (mention u))
             [infraction_embed capitalize ctx t a d r] no_view None).
Proof.
  intros Hio. cbn zeta. unfold infract, send_error.
  rewrite run_after_delete by done.
  destruct user as [u|];
    [|eexists; rewrite run_ccall_send; cbn; split_and!; done].
  destruct appealable as [[|c1 a]|];
    [eexists; rewrite run_ccall_send; cbn; split_and!; done| |
     eexists; rewrite run_ccall_send; cbn; split_and!; done].
  destruct reason_and_type as [[|c2 rt]|];
    [eexists; rewrite run_ccall_send; cbn; split_and!; done| |
     eexists; rewrite run_ccall_send; cbn; split_and!; done].
  case_decide as Hyn;
    [eexists; rewrite run_ccall_send; cbn; split_and!; done|].
  case_decide as Hlen;
    [eexists; rewrite run_ccall_send; cbn; split_and!; done|].
  destruct (parse_reason_and_type lower (split (String c2 rt)))
    as [t d r|entered| |] eqn:Hp.
  - eexists. rewrite run_ccall_send. cbn. split_and!; try done.
    intros _. exists u, (String c1 a), (String c2 rt), t, d, r.
    split_and!; first [done | by apply dec_stable].
  - eexists. rewrite run_ccall_send. cbn. split_and!; done.
  - eexists. rewrite run_ccall_send. cbn. split_and!; done.
  - exfalso.
    destruct (split_last_two (split (String c2 rt))) as (pre & x & y & Hs);
      [lia|].
    rewrite Hs, parse_last_two in Hp. repeat case_decide; done.
Qed.

End InfractProperties.

Lemma infraction_type_is_configured_witness :
  parse_reason_and_type ascii_lower
    (ascii_split "Excessive violations Suspension 7d") =
    parsed "suspension" (Some "7d") "Excessive violations" ∧
  is_Some (type_config !! "suspension").
Proof.
  assert (parse_reason_and_type ascii_lower
            (ascii_split "Excessive violations Suspension 7d") =
          parsed "suspension" (Some "7d") "Excessive violations") as Hp
    by (vm_compute; reflexivity).
  split; [exact Hp|].
  exact (proj1 (proj2 (infraction_type_is_configured ascii_lower _ _ _ _ Hp))).
Defined.

Lemma trailing_suspension_word_witness :
  parse_reason_and_type ascii_lower
    (ascii_split "Excessive violations Suspension") =
    parsed "suspension" (Some "Suspension") "Excessive".
Proof.
  refine (trailing_suspension_word ascii_lower ["Excessive"] "violations"
            "Suspension" _ _).
  - discriminate.
  - vm_compute. reflexivity.
Defined.

Lemma trailing_word_is_duration_witness :
  parse_reason_and_type ascii_lower
    (ascii_split "Late to shift Warning please") =
    parsed "warning" (Some "please") "Late to shift".
Proof.
  refine (trailing_word_is_duration ascii_lower ["Late"; "to"; "shift"]
            "Warning" "please" _ _).
  - vm_compute. intros Hin.
    repeat (apply elem_of_cons in Hin as [Hin|Hin]; [discriminate Hin|]).
    by apply elem_of_nil in Hin.
  - vm_compute. apply list_elem_of_here.
Defined.

Lemma reason_is_never_empty_witness :
  re_fields (infraction_embed ascii_capitalize (ctx_of 7 []) "strike" "yes"
               None "Speeding") !! 1%nat =
    Some ("Reason:", "Speeding", false).
Proof.
  refine (proj2 (reason_is_never_empty ascii_lower ascii_capitalize
                   (ctx_of 7 []) "yes" (ascii_split "Speeding Strike")
                   "strike" None "Speeding" _ _ _)).
  - vm_compute. repeat constructor; discriminate.
  - vm_compute. lia.
  - vm_compute. reflexivity.
Defined.

Lemma infract_replies_once_witness :
  ∃ m, co_trace (run_cmd cio_ok
                   (infract ascii_lower ascii_capitalize ascii_split
                      (ctx_of 7 []) (Some 42) (Some "Maybe")
                      (Some "Speeding Strike")) globals0) =
         [CmdCall CtxMessageDelete None; CmdCall (CtxSend m) None].
Proof.
  assert (only_exceptions cio_ok) as Hio by (intros c e H; discriminate H).
  destruct (infract_replies_once ascii_lower ascii_capitalize ascii_split
              cio_ok (ctx_of 7 []) (Some 42) (Some "Maybe")
              (Some "Speeding Strike") globals0 Hio) as (m & Htr & _).
  exists m. exact Htr.
Defined.

(** ** The persisted welcome channel *)

Lemma run_load_state (io : CtxCall -> option Exn) (g : Globals) :
  only_exceptions io ->
  co_globals (run_cmd io load_state g) = g ∧
  co_result (run_cmd io load_state g) = inl (readable_state io (disk g)).
Proof.
  intros Hio. unfold load_state, readable_state, ctry. destruct g as [w s d].
  destruct d as [| |s']; cbn; [done| |];
    destruct (io FileOpenRead) as [e|] eqn:He; cbn;
    rewrite ?(Hio _ _ He); cbn; done.
Qed.

(** The outcome of the module-level initialisation. *)
Lemma run_restart (io : CtxCall -> option Exn) (g : Globals) :
  only_exceptions io ->
  co_result (restart io g) = inl tt ∧
  disk (co_globals (restart io g)) = disk g ∧
  state (co_globals (restart io g)) = readable_state io (disk g) ∧
  WELCOME_CHANNEL_ID (co_globals (restart io g)) =
    default 1371624518514376916
      (state (co_globals (restart io g)) !! "welcome_channel_id").
Proof.
  intros Hio. unfold restart, module_init.
  rewrite run_cmd_bind.
  destruct (run_load_state io (mkGlobals 0 ∅ (disk g)) Hio) as [-> ->].
  cbn. by split_and!.
Qed.

(** Loading the module (lines 122-123) on a state file that is absent,
    holds no JSON document or holds a dictionary [save_state] wrote never
    fails: it leaves the state file as it is, takes
    the dictionary of the file as [state] when the file holds one and can
    be read, and the empty dictionary otherwise (no file, a file without a
    JSON document, a read that raises); [WELCOME_CHANNEL_ID] is the entry
    "welcome_channel_id" of that dictionary, or 1371624518514376916 when
    there is none. *)
Theorem restart_reads_the_file (io : CtxCall -> option Exn) (g : Globals) :
  only_exceptions io ->
  let r := restart io g in
  co_result r = inl tt ∧
  disk (co_globals r) = disk g ∧
  state (co_globals r) = readable_state io (disk g) ∧
  WELCOME_CHANNEL_ID (co_globals r) =
    default 1371624518514376916 (state (co_globals r) !! "welcome_channel_id") ∧
  (disk g = no_file ∨ disk g = corrupt_file ∨ is_Some (io FileOpenRead) ->
   state (co_globals r) = ∅ ∧
   WELCOME_CHANNEL_ID (co_globals r) = 1371624518514376916).
Proof.
  intros Hio. cbn zeta.
  destruct (run_restart io g Hio) as (Hr & Hd & Hs & Hw).
  split_and!; [exact Hr|exact Hd|exact Hs|exact Hw|].
  intros Hbad. rewrite Hw, Hs.
  assert (readable_state io (disk g) = ∅) as ->; [|done].
  unfold readable_state.
  destruct Hbad as [->| [->|[e ->]]]; [done..|].
  by destruct (disk g).
Qed.

Lemma restart_reads_the_file_witness :
  WELCOME_CHANNEL_ID
    (co_globals (restart cio_read_fails
                   (mkGlobals 5 ∅ (json_file {["welcome_channel_id" := 77]}))))
  = 1371624518514376916.
Proof.
  assert (only_exceptions cio_read_fails) as Hio.
  { intros c e. destruct c; cbn; intros H; try discriminate H.
    by injection H as <-. }
  refine (proj2 (proj2 (proj2 (proj2 (proj2 (restart_reads_the_file
            cio_read_fails _ Hio)))) _)).
  right. right. cbn. eauto.
Defined.

Section SetWelcome.
Variable io : CtxCall -> option Exn.
Hypothesis io_exceptions : only_exceptions io.
Variable ctx : Context.
Variable channel : Z.

Lemma run_save_state (s : gmap string Z) (g : Globals) :
  co_globals (run_cmd io (save_state s) g) =
    mkGlobals (WELCOME_CHANNEL_ID g) (state g) (disk_after_save io s (disk g)) ∧
  co_result (run_cmd io (save_state s) g) = inl tt ∧
  ∀ e, io FileOpenWrite = Some e ∨
       (io FileOpenWrite = None ∧ io (JsonDump s) = Some e) ->
       CmdLog log_error ("Failed to save state file: " +:+ exn_text e) ∈
         co_trace (run_cmd io (save_state s) g).
Proof.
  unfold save_state, disk_after_save, ctry. cbn.
  destruct (io FileOpenWrite) as [e|] eqn:He; cbn.
  - rewrite (io_exceptions _ _ He). cbn. split_and!; try done.
    intros e' [[= <-]|[? _]]; [|done]. set_solver.
  - destruct (io (JsonDump s)) as [e|] eqn:Hd; cbn.
    + rewrite (io_exceptions _ _ Hd). cbn. split_and!; try done.
      intros e' [?|[_ [= <-]]]; [done|]. set_solver.
    + split_and!; try done. intros e' [?|[_ ?]]; done.
Qed.

Lemma run_setwelcome (g : Globals) :
  let o := run_cmd io (setwelcome ctx (Some channel)) g in
  co_globals o =
    mkGlobals channel (updated_state channel g)
              (disk_after_save io (updated_state channel g) (disk g)) ∧
  co_result o =
    match io (CtxSend (welcome_updated channel)) with
    | None => inl tt
    | Some e => inr e
    end ∧
  CmdCall (CtxSend (welcome_updated channel)) (io (CtxSend (welcome_updated channel))) ∈
    co_trace o ∧
  ∀ e, io FileOpenWrite = Some e ∨
       (io FileOpenWrite = None ∧
        io (JsonDump (updated_state channel g)) = Some e) ->
       CmdLog log_error ("Failed to save state file: " +:+ exn_text e) ∈
         co_trace o.
Proof.
  cbn zeta. unfold setwelcome. rewrite run_after_delete by done.
  cbn -[save_state]. change (cmd_bind ?f ?q) with (q ≫= f).
  rewrite run_cmd_bind.
  destruct (run_save_state (updated_state channel g)
              (mkGlobals channel (updated_state channel g) (disk g)))
    as (Hg & Hr & Hlog).
  unfold updated_state in *. rewrite Hr, Hg. cbn.
  unfold welcome_updated.
  destruct (io (CtxSend _)) as [e|] eqn:Hsend; cbn;
    (split_and!; [done|done|set_solver|]);
    intros e' He'; specialize (Hlog e' He'); set_solver.
Qed.

End SetWelcome.

(** A welcome channel set with [setwelcome] survives a restart: when the
    state file can be written and read, the command stores the channel
    under "welcome_channel_id" beside the other entries of [state], and a
    new process loads that dictionary and takes the channel as its
    [WELCOME_CHANNEL_ID].  This holds whether or not the deletion of the
    invocation and the confirmation were delivered. *)
Theorem setwelcome_survives_restart (io io' : CtxCall -> option Exn)
    (ctx : Context) (channel : Z) (g : Globals) :
  only_exceptions io ->
  only_exceptions io' ->
  io FileOpenWrite = None ->
  (∀ d, io (JsonDump d) = None) ->
  io' FileOpenRead = None ->
  let o := run_cmd io (setwelcome ctx (Some channel)) g in
  let r := restart io' (co_globals o) in
  WELCOME_CHANNEL_ID (co_globals o) = channel ∧
  state (co_globals o) = <["welcome_channel_id" := channel]> (state g) ∧
  WELCOME_CHANNEL_ID (co_globals r) = channel ∧
  state (co_globals r) = <["welcome_channel_id" := channel]> (state g) ∧
  (∀ key, key ≠ "welcome_channel_id" ->
          state (co_globals r) !! key = state g !! key).
Proof.
  intros Hio Hio' Hopen Hdump Hread. cbn zeta.
  destruct (run_setwelcome io Hio ctx channel g) as (Hg & _).
  destruct (run_restart io'
              (co_globals (run_cmd io (setwelcome ctx (Some channel)) g)) Hio')
    as (_ & _ & Hs & Hw).
  rewrite Hw, Hs, Hg. cbn [disk WELCOME_CHANNEL_ID state].
  unfold disk_after_save, readable_state.
  rewrite Hopen, Hdump, Hread. unfold updated_state.
  rewrite lookup_insert_eq. split_and!; try done.
  intros key Hkey. by rewrite lookup_insert_ne.
Qed.

Lemma setwelcome_survives_restart_witness :
  let o := run_cmd cio_ok (setwelcome (ctx_of 7 []) (Some 4242))
             (mkGlobals 5 {["other" := 1]} no_file) in
  WELCOME_CHANNEL_ID (co_globals (restart cio_ok (co_globals o))) = 4242 ∧
  state (co_globals (restart cio_ok (co_globals o))) !! "other" = Some 1.
Proof.
  assert (only_exceptions cio_ok) as Hio by (intros c e H; discriminate H).
  destruct (setwelcome_survives_restart cio_ok cio_ok (ctx_of 7 []) 4242
              (mkGlobals 5 {["other" := 1]} no_file) Hio Hio eq_refl
              (fun _ => eq_refl) eq_refl)
    as (_ & _ & Hw & _ & Hother).
  split; [exact Hw|]. cbn zeta. rewrite Hother by discriminate.
  vm_compute. reflexivity.
Defined.

(** A failed save is swallowed, and an interrupted one loses the file.
    When writing the state file raises, [setwelcome] logs the failure and
    still updates [WELCOME_CHANNEL_ID] in memory and sends its confirmation.
    If the file could not be opened it is left as it was, so a new process
    starts from the previously saved state; if the file was opened and the
    dump raised, the file no longer holds a dictionary and a new process
    falls back to the empty state and the default channel. *)
Theorem setwelcome_save_failure (io io' : CtxCall -> option Exn)
    (ctx : Context) (channel : Z) (g : Globals) (e : Exn) :
  only_exceptions io ->
  only_exceptions io' ->
  io FileOpenWrite = Some e ∨
  (io FileOpenWrite = None ∧ ∀ d, io (JsonDump d) = Some e) ->
  let o := run_cmd io (setwelcome ctx (Some channel)) g in
  let r := restart io' (co_globals o) in
  WELCOME_CHANNEL_ID (co_globals o) = channel ∧
  CmdLog log_error ("Failed to save state file: " +:+ exn_text e) ∈ co_trace o ∧
  CmdCall (CtxSend (welcome_updated channel))
          (io (CtxSend (welcome_updated channel))) ∈ co_trace o ∧
  (io (CtxSend (welcome_updated channel)) = None -> co_result o = inl tt) ∧
  (io FileOpenWrite = Some e ->
   disk (co_globals o) = disk g ∧ r = restart io' g) ∧
  (io FileOpenWrite = None ->
   disk (co_globals o) = corrupt_file ∧
   state (co_globals r) = ∅ ∧
   WELCOME_CHANNEL_ID (co_globals r) = DEFAULT_WELCOME_CHANNEL_ID).
Proof.
  intros Hio Hio' Hfail. cbn zeta.
  destruct (run_setwelcome io Hio ctx channel g) as (Hg & Hr & Hsent & Hlog).
  split_and!.
  - by rewrite Hg.
  - apply Hlog. destruct Hfail as [?|[? ?]]; [by left|right; by split].
  - exact Hsent.
  - intros Hsend. by rewrite Hr, Hsend.
  - intros Hopen. rewrite Hg. cbn [disk]. unfold disk_after_save.
    rewrite Hopen. split; [done|]. unfold restart. by cbn [disk].
  - intros Hopen. destruct Hfail as [Hf|[_ Hdump]]; [congruence|].
    assert (disk (co_globals (run_cmd io (setwelcome ctx (Some channel)) g))
            = corrupt_file) as Hd.
    { rewrite Hg. cbn [disk]. unfold disk_after_save.
      by rewrite Hopen, Hdump. }
    split; [exact Hd|].
    destruct (run_restart io'
                (co_globals (run_cmd io (setwelcome ctx (Some channel)) g))
                Hio') as (_ & _ & Hs & Hw).
    by rewrite Hw, Hs, Hd.
Qed.

Lemma setwelcome_save_failure_witness :
  let g := mkGlobals 77 {["welcome_channel_id" := 77]}
             (json_file {["welcome_channel_id" := 77]}) in
  let o := run_cmd cio_dump_fails (setwelcome (ctx_of 7 []) (Some 4242)) g in
  WELCOME_CHANNEL_ID (co_globals o) = 4242 ∧
  WELCOME_CHANNEL_ID (co_globals (restart cio_ok (co_globals o))) =
    DEFAULT_WELCOME_CHANNEL_ID.
Proof.
  cbn zeta.
  assert (only_exceptions cio_ok) as Hio' by (intros c e H; discriminate H).
  assert (only_exceptions cio_dump_fails) as Hio.
  { intros c e. destruct c; cbn; intros H; try discriminate H.
    by injection H as <-. }
  destruct (setwelcome_save_failure cio_dump_fails cio_ok (ctx_of 7 []) 4242
              (mkGlobals 77 {["welcome_channel_id" := 77]}
                 (json_file {["welcome_channel_id" := 77]}))
              (mkExn exn_Exception "No space left on device") Hio Hio')
    as (Hw & _ & _ & _ & _ & Hlost).
  - right. split; reflexivity.
  - split; [exact Hw|]. exact (proj2 (proj2 (Hlost eq_refl))).
Defined.

(** ** Welcome messages *)

(** [on_member_join] never raises and never touches the globals.  It sends
    at most one message: the welcome, with the member count on its button,
    and only for a member of guild 1349505197210206350 when the configured
    welcome channel is in the bot's cache; the guild of that channel is not
    looked at.  A welcome that cannot be sent is logged. *)
Theorem member_join_welcome (get_channel : Z -> option Channel)
    (io : CtxCall -> option Exn) (member : Member) (g : Globals) :
  only_exceptions io ->
  let o := run_cmd io (on_member_join get_channel member) g in
  co_result o = inl tt ∧
  co_globals o = g ∧
  calls_of (co_trace o) =
    match get_channel (WELCOME_CHANNEL_ID g) with
    | Some ch =>
        if decide (member_guild member = 1349505197210206350) then
          [WelcomeChannelSend (channel_id ch)
             (welcome_message (member_id member) (member_guild_count member))]
        else []
    | None => []
    end ∧
  (is_Some (get_channel (WELCOME_CHANNEL_ID g)) ->
   member_guild member = 1349505197210206350 ->
   (∀ m, is_Some (io (WelcomeChannelSend (WELCOME_CHANNEL_ID g) m))) ->
   (∀ ch, get_channel (WELCOME_CHANNEL_ID g) = Some ch ->
          channel_id ch = WELCOME_CHANNEL_ID g) ->
   CmdLog log_exception_level "Failed to send welcome message" ∈ co_trace o).
Proof.
  intros Hio. cbn zeta. unfold on_member_join, target_guild_id, ctry.
  destruct g as [w s d]. cbn [WELCOME_CHANNEL_ID].
  destruct (decide (member_guild member = 1349505197210206350))
    as [Hguild|Hguild].
  2:{ rewrite (decide_True (P := member_guild member ≠ 1349505197210206350))
        by done.
      cbn. destruct (get_channel w); split_and!; try done. }
  rewrite (decide_False (P := member_guild member ≠ 1349505197210206350))
    by (intros Hne; by apply Hne).
  cbn.
  - destruct (get_channel w) as [ch|] eqn:Hch; cbn.
    + destruct (io (WelcomeChannelSend _ _)) as [e|] eqn:He; cbn.
      * rewrite (Hio _ _ He). cbn. split_and!; try done.
        intros _ _ _ _. set_solver.
      * split_and!; try done. intros _ _ Hfail Hid.
        specialize (Hid ch eq_refl). rewrite Hid in He.
        destruct (Hfail (welcome_message (member_id member)
                           (member_guild_count member))) as [e He'].
        congruence.
    + split_and!; first [done | by intros [? ?]].
Qed.

Lemma member_join_welcome_witness :
  calls_of (co_trace (run_cmd cio_ok (on_member_join cache1 member1)
                        (mkGlobals 4242 ∅ no_file))) =
    [WelcomeChannelSend 4242 (welcome_message 31 121)].
Proof.
  assert (only_exceptions cio_ok) as Hio by (intros c e H; discriminate H).
  exact (proj1 (proj2 (proj2 (member_join_welcome cache1 cio_ok member1
                                (mkGlobals 4242 ∅ no_file) Hio)))).
Defined.

(** [testwelcome] sends the test welcome only to a cached welcome channel
    of the invoking guild; otherwise it sends nothing there and answers
    that the channel was not found, quoting the configured identifier.
    When the welcome was delivered but the confirmation raises, the handler
    logs "Error sending test welcome" and reports an error sending the
    test welcome message, with the text of that exception. *)
Theorem testwelcome_reports (get_channel : Z -> option Channel)
    (io : CtxCall -> option Exn) (ctx : Context) (g : Globals) :
  only_exceptions io ->
  let o := run_cmd io (testwelcome get_channel ctx) g in
  let not_found :=
    CtxSend (text_message
               ("❌ Welcome channel not found or not in this guild (ID: " +:+
                pretty (WELCOME_CHANNEL_ID g) +:+ ")") (Some 10)) in
  co_globals o = g ∧
  ((∀ ch, get_channel (WELCOME_CHANNEL_ID g) = Some ch ->
          channel_guild ch ≠ ctx_guild ctx) ->
   calls_of (co_trace o) = [CtxMessageDelete; not_found]) ∧
  (∀ ch e,
     get_channel (WELCOME_CHANNEL_ID g) = Some ch ->
     channel_guild ch = ctx_guild ctx ->
     let welcome :=
       WelcomeChannelSend (channel_id ch)
         (welcome_message (ctx_author ctx) (ctx_member_count ctx)) in
     let confirmation :=
       CtxSend (text_message ("✅ Test welcome message sent to " +:+
                              channel_mention (channel_id ch)) (Some 8)) in
     io welcome = None ->
     io confirmation = Some e ->
     calls_of (co_trace o) =
       [CtxMessageDelete; welcome; confirmation;
        CtxSend (text_message ("❌ Error sending test welcome message: " +:+
                               exn_text e) None)] ∧
     CmdLog log_exception_level "Error sending test welcome" ∈ co_trace o).
Proof.
  intros Hio. cbn zeta. unfold testwelcome.
  rewrite run_after_delete by done. destruct g as [w s d]. cbn.
  split_and!.
  - destruct (get_channel w) as [ch|]; cbn; [|by destruct (io _)].
    case_decide; cbn; [|by destruct (io _)].
    unfold ctry. cbn.
    repeat (match goal with
            | |- context [io ?c] =>
                let E := fresh "E" in
                destruct (io c) eqn:E; cbn;
                try (rewrite (Hio _ _ E); cbn)
            end); done.
  - intros Hother. destruct (get_channel w) as [ch|]; cbn.
    + rewrite decide_False by (by apply Hother). cbn.
      by destruct (io _).
    + by destruct (io _).
  - intros ch e Hch Hguild Hw Hc. rewrite Hch. cbn.
    rewrite decide_True by done. unfold ctry. cbn.
    rewrite Hw. cbn. rewrite Hc. cbn. rewrite (Hio _ _ Hc). cbn.
    destruct (io (CtxSend (text_message (_ +:+ exn_text e) None)));
      cbn; (split; [done|]); set_solver.
Qed.

Lemma testwelcome_reports_witness :
  last (calls_of (co_trace (run_cmd cio_confirmation_fails
                              (testwelcome cache1 (ctx_of 7 []))
                              (mkGlobals 4242 ∅ no_file)))) =
    Some (CtxSend (text_message
                     "❌ Error sending test welcome message: Missing Permissions"
                     None)).
Proof.
  assert (only_exceptions cio_confirmation_fails) as Hio.
  { intros c e. destruct c as [|[? ? ? [[| | ]|]]| | | | | |]; cbn;
      intros H; try discriminate H;
      repeat (match goal with
              | H : match ?x with _ => _ end = Some _ |- _ => destruct x
              end; try discriminate H);
      by injection H as <-. }
  destruct (testwelcome_reports cache1 cio_confirmation_fails (ctx_of 7 [])
              (mkGlobals 4242 ∅ no_file) Hio) as (_ & _ & Hfail).
  destruct (Hfail (mkChannel 4242 1349505197210206350)
                  (mkExn exn_Exception "Missing Permissions")
                  eq_refl eq_refl eq_refl eq_refl) as [-> _].
  reflexivity.
Defined.

(** ** Entry point *)

(** [main] lets neither an [Exception] nor a [KeyboardInterrupt] escape.
    Without a token (unset or empty) it makes no call, logs the configuration
    error and returns: the "Bot token missing" error of [NebraskaBot.run] is
    never raised under [main].  With a token the bot is set up first, and
    started with that token only when the setup returned; a setup that
    raises an [Exception] is logged with its text and the bot is not
    started. *)
Theorem main_starts_only_with_token (io : CtxCall -> option Exn)
    (token : option string) (g : Globals) :
  let o := run_cmd io (main token) g in
  (∀ e, co_result o = inr e -> exn_class e = exn_BaseException) ∧
  (truthy token = false ->
   co_trace o = [CmdLog log_info "Starting Nebraska State Roleplay bot";
                 CmdLog log_error "Config validation failed:";
                 CmdLog log_error "  - DISCORD_BOT_TOKEN is required"] ∧
   co_result o = inl tt) ∧
  (∀ t, token = Some t -> t ≠ "" ->
     (io BotSetup = None ->
      calls_of (co_trace o) = [BotSetup; BotStart t]) ∧
     (∀ e, io BotSetup = Some e ->
        calls_of (co_trace o) = [BotSetup] ∧
        (exn_class e = exn_Exception ->
         CmdLog log_exception_level ("Bot crashed: " +:+ exn_text e)
           ∈ co_trace o ∧
         co_result o = inl tt))).
Proof.
  cbn zeta. destruct token as [[|a t']|].
  - split_and!; [by intros e [=]|done|by intros t [= <-]].
  - unfold main, validate_config. cbn [truthy length].
    rewrite bool_decide_eq_true_2 by done. split_and!.
    + cbn. destruct (io BotSetup) as [e1|] eqn:E1; cbn.
      * destruct (exn_class e1) eqn:C1; cbn; intros e [=]. by subst.
      * destruct (io (BotStart _)) as [e2|]; cbn; [|by intros e [=]].
        destruct (exn_class e2) eqn:C2; cbn; intros e [=]. by subst.
    + intros [=].
    + intros t [= <-] _. split.
      * intros E1. cbn. rewrite E1. cbn.
        destruct (io (BotStart _)) as [e2|]; cbn; [|done].
        by destruct (exn_class e2).
      * intros e E1. cbn. rewrite E1. cbn. split.
        -- by destruct (exn_class e).
        -- intros ->. cbn. split; [set_solver|done].
  - split_and!; [by intros e [=]|done|by intros t [=]].
Qed.

Lemma main_starts_only_with_token_witness :
  calls_of (co_trace (run_cmd cio_ok (main (Some "token")) globals0)) =
    [BotSetup; BotStart "token"].
Proof.
  refine (proj1 (proj2 (proj2 (main_starts_only_with_token cio_ok
                                 (Some "token") globals0))
                   "token" eq_refl _) eq_refl).
  discriminate.
Defined.
